(** * petabvis: window_functionality

    A shallow embedding of [petabvis/window_functionality.py]: the table
    model and pop-up view, the tree view of the files named by a YAML
    manifest, the two click handlers of that tree and the two file dialogs
    of the main window.

    The main window is a record of the attributes the module reads and
    writes.  A handler is a function from the window before the call to
    the window after it together with the handler's outcome, which is
    either the value returned or the Python exception that left it: an
    assignment made before a [raise] stays made. *)

From Stdlib Require Import String Ascii List Bool Arith ZArith Lia.
Import ListNotations.
Local Open Scope string_scope.
Local Open Scope list_scope.

(** ** Constants of [petab.C] *)

(** The manifest keys and the column name this module uses from the PEtab
    library's constant table. *)
Definition MEASUREMENT_FILES : string := "measurement_files".
Definition CONDITION_FILES : string := "condition_files".
Definition VISUALIZATION_FILES : string := "visualization_files".
Definition OBSERVABLE_FILES : string := "observable_files".
Definition REPLICATE_ID : string := "replicateId".

(** ** Data frames *)

(** A [pd.DataFrame] as this module sees it: a number of rows and the
    labelled columns in order, each with its cells as display strings. *)
Record DataFrame : Type := mkDataFrame {
  df_rows : nat;
  df_data : list (string * list string)
}.

(** [df.columns] *)
Definition columns (df : DataFrame) : list string := map fst (df_data df).

(** [name in df.columns] *)
Definition has_column (name : string) (df : DataFrame) : bool :=
  existsb (String.eqb name) (columns df).

(** [df.drop(name, axis=1, inplace=True)]: every column labelled [name]
    goes, the others stay in order. *)
Definition drop (name : string) (df : DataFrame) : DataFrame :=
  {| df_rows := df_rows df;
     df_data := filter (fun c => negb (String.eqb name (fst c))) (df_data df) |}.

(** [data.shape] *)
Definition shape (df : DataFrame) : nat * nat :=
  (df_rows df, List.length (df_data df)).

(** ** Exceptions, dictionaries, paths *)

Inductive Exn : Type :=
| KeyError (key : string)
| IndexError
| TypeError
| PetabError (message : string).

(** A Python [dict] with string keys, in insertion order. *)
Definition dict (V : Type) : Type := list (string * V).

Fixpoint dict_find {V : Type} (key : string) (d : dict V) : option V :=
  match d with
  | [] => None
  | (k, v) :: rest => if String.eqb key k then Some v else dict_find key rest
  end.

(** [key in d] *)
Definition dict_mem {V : Type} (key : string) (d : dict V) : bool :=
  match dict_find key d with Some _ => true | None => false end.

(** [d[key]] *)
Definition getitem {V : Type} (d : dict V) (key : string) : Exn + V :=
  match dict_find key d with
  | Some v => inr v
  | None => inl (KeyError key)
  end.

(** [l[0]] *)
Definition first {A : Type} (l : list A) : Exn + A :=
  match l with
  | x :: _ => inr x
  | [] => inl IndexError
  end.

(** [l[i]] for a Python integer [i]: a negative index counts from the end,
    an index outside [-len(l) .. len(l) - 1] raises [IndexError]. *)
Definition py_getitem {A : Type} (l : list A) (i : Z) : Exn + A :=
  let n := Z.of_nat (List.length l) in
  let j := if (i <? 0)%Z then (i + n)%Z else i in
  if ((0 <=? j) && (j <? n))%Z
  then match nth_error l (Z.to_nat j) with
       | Some x => inr x
       | None => inl IndexError
       end
  else inl IndexError.

(** [str(df.iloc[row, column])]: the cell at two integer positions, each
    read as [py_getitem] reads it. *)
Definition iloc (df : DataFrame) (row column : Z) : Exn + string :=
  match py_getitem (df_data df) column with
  | inl e => inl e
  | inr (_, cells) => py_getitem cells row
  end.

(** One problem object of a manifest: category key to file names. *)
Definition YamlDict : Type := dict (list string).

(** What [petab.load_yaml] returns: the top-level keys the module reads
    hold sequences of problem objects. *)
Definition YamlDoc : Type := dict (list YamlDict).

Definition is_sep (c : ascii) : bool := Ascii.eqb c "/"%char.

Fixpoint drop_while {A : Type} (f : A -> bool) (l : list A) : list A :=
  match l with
  | [] => []
  | x :: rest => if f x then drop_while f rest else l
  end.

(** [os.path.dirname] on POSIX paths: the part up to the last slash, with
    its trailing slashes removed unless it consists of slashes only. *)
Definition dirname (p : string) : string :=
  let head_rev := drop_while (fun c => negb (is_sep c)) (rev (list_ascii_of_string p)) in
  if forallb is_sep head_rev
  then string_of_list_ascii (rev head_rev)
  else string_of_list_ascii (rev (drop_while is_sep head_rev)).

(** ** The PEtab library *)

(** The functions of [petab] the module calls.  Each loader either returns
    a table or raises.  [check_ex_exp_columns] is the call of line 274,
    [(sim_data, None, ..., None, window.condition_df, sim=True)], reduced
    to its first result. *)
Record Petab : Type := mkPetab {
  load_yaml : string -> Exn + YamlDoc;
  get_measurement_df : string -> Exn + DataFrame;
  get_visualization_df : string -> Exn + DataFrame;
  get_condition_df : string -> Exn + DataFrame;
  get_observable_df : string -> Exn + DataFrame;
  get_simulation_df : string -> Exn + DataFrame;
  check_ex_exp_columns : DataFrame -> option DataFrame -> Exn + DataFrame
}.

(** ** Table model and table widget *)

(** [CustomTableModel]: [load_data] stores every column of the frame as an
    attribute under the column's name and then the dimensions, [__init__]
    stores the frame. *)
Record CustomTableModel : Type := mkCustomTableModel {
  column_attributes : dict (list string);
  row_count : nat;
  column_count : nat;
  df : DataFrame
}.

(** [load_data(data)]: the attributes it sets. *)
Definition load_data (data : DataFrame) : dict (list string) * nat * nat :=
  (df_data data, fst (shape data), snd (shape data)).

(** [CustomTableModel(data)] *)
Definition newCustomTableModel (data : DataFrame) : CustomTableModel :=
  let '(attributes, rows, cols) := load_data data in
  {| column_attributes := attributes;
     row_count := rows;
     column_count := cols;
     df := data |}.

(** An attribute that [load_data] set on the instance under the name of
    a method hides that method: the name then denotes a column and calling
    it raises [TypeError]. *)
Definition shadowed (name : string) (m : CustomTableModel) : bool :=
  dict_mem name (column_attributes m).

Definition rowCount (m : CustomTableModel) : Exn + nat :=
  if shadowed "rowCount" m then inl TypeError else inr (row_count m).

Definition columnCount (m : CustomTableModel) : Exn + nat :=
  if shadowed "columnCount" m then inl TypeError else inr (column_count m).

Inductive Orientation : Type := Horizontal | Vertical.
Inductive Role : Type := DisplayRole | BackgroundRole | TextAlignmentRole | OtherRole.

Fixpoint digits (fuel n : nat) (acc : string) : string :=
  match fuel with
  | 0 => acc
  | S fuel' =>
      let acc' := String (ascii_of_nat (48 + n mod 10)) acc in
      if Nat.eqb (n / 10) 0 then acc' else digits fuel' (n / 10) acc'
  end.

Definition format_nat (n : nat) : string := digits (S n) n "".

(** ["{}".format(section)] for an integer. *)
Definition format_int (z : Z) : string :=
  if (z <? 0)%Z
  then String "-" (format_nat (Z.to_nat (- z)))
  else format_nat (Z.to_nat z).

(** [headerData(section, orientation, role)] *)
Definition headerData (m : CustomTableModel) (section : Z)
    (orientation : Orientation) (role : Role) : Exn + option string :=
  if shadowed "headerData" m then inl TypeError
  else
    match role with
    | DisplayRole =>
        match orientation with
        | Horizontal =>
            match py_getitem (columns (df m)) section with
            | inl e => inl e
            | inr name => inr (Some name)
            end
        | Vertical => inr (Some (format_int section))
        end
    | _ => inr None
    end.

Inductive CellData : Type :=
| Text (s : string)
| White
| AlignRight.

(** [data(index, role)], with [row] and [column] those of the index: [-1]
    and [-1] for Qt's invalid index. *)
Definition data (m : CustomTableModel) (row column : Z) (role : Role)
    : Exn + option CellData :=
  if shadowed "data" m then inl TypeError
  else
    match role with
    | DisplayRole =>
        match iloc (df m) row column with
        | inl e => inl e
        | inr s => inr (Some (Text s))
        end
    | BackgroundRole => inr (Some White)
    | TextAlignmentRole => inr (Some AlignRight)
    | OtherRole => inr None
    end.

(** [TableWidget]: the model behind the sortable view, the geometry and
    whether [show()] was called.  The widget is built without a Qt parent,
    so the attribute that holds it is its only owner. *)
Record TableWidget : Type := mkTableWidget {
  model : CustomTableModel;
  geometry : nat * nat * nat * nat;
  shown : bool
}.

Definition newTableWidget (data : DataFrame) : TableWidget :=
  {| model := newCustomTableModel data; geometry := (0, 0, 0, 0); shown := false |}.

Definition setGeometry (g : nat * nat * nat * nat) (t : TableWidget) : TableWidget :=
  {| model := model t; geometry := g; shown := shown t |}.

Definition show (t : TableWidget) : TableWidget :=
  {| model := model t; geometry := geometry t; shown := true |}.

(** ** The tree model *)

(** A [QStandardItemModel] two levels deep: a branch per category, a leaf
    per file with the frame stored under [Qt.UserRole + 1]. *)
Record Leaf : Type := mkLeaf {
  leaf_name : string;
  leaf_data : option DataFrame
}.

Record Branch : Type := mkBranch {
  branch_name : string;
  branch_rows : list Leaf
}.

Definition TreeModel : Type := list Branch.

Inductive QModelIndex : Type :=
| InvalidIndex
| BranchIndex (row : nat)
| LeafIndex (branch row : nat).

(** [index.parent()] *)
Definition parent_of (index : QModelIndex) : QModelIndex :=
  match index with
  | LeafIndex b _ => BranchIndex b
  | _ => InvalidIndex
  end.

Definition leaf_at (m : TreeModel) (b r : nat) : option Leaf :=
  match nth_error m b with
  | Some br => nth_error (branch_rows br) r
  | None => None
  end.

(** [model.data(index, Qt.DisplayRole)]: the item's text, [None] for the
    invisible root and for an index that names no item. *)
Definition display_data (m : TreeModel) (index : QModelIndex) : option string :=
  match index with
  | InvalidIndex => None
  | BranchIndex b => option_map branch_name (nth_error m b)
  | LeafIndex b r => option_map leaf_name (leaf_at m b r)
  end.

(** [model.data(index, role=Qt.UserRole + 1)]: the frame stored in a leaf,
    [None] where nothing was stored. *)
Definition user_data (m : TreeModel) (index : QModelIndex) : option DataFrame :=
  match index with
  | LeafIndex b r =>
      match leaf_at m b r with
      | Some l => leaf_data l
      | None => None
      end
  | _ => None
  end.

(** ** The main window *)

(** The four tables the plots are drawn from. *)
Record ActiveSelection : Type := mkActiveSelection {
  sel_measurement : option DataFrame;
  sel_condition : option DataFrame;
  sel_visualization : option DataFrame;
  sel_simulation : option DataFrame
}.

Inductive FileKind : Type :=
| YamlFile | MeasurementFile | VisualizationFile | ConditionFile
| ObservableFile | SimulationFile.

(** What a handler does that leaves the window: a file read through the
    PEtab library and a call of [window.add_plots()], with the tables it
    was called on. *)
Inductive Event : Type :=
| Load (kind : FileKind) (path : string)
| RefreshPlots (sel : ActiveSelection).

(** The attributes of the main window this module uses, the stored
    ["last_dir"] setting, the trace, and the handlers connected to the two
    signals of [window.tree_view]: each is the lambda of line 153 or 154,
    kept as the tree model it captured, in the order of the [connect]
    calls. *)
Record Window : Type := mkWindow {
  exp_data : option DataFrame;
  condition_df : option DataFrame;
  visualization_df : option DataFrame;
  simulation_df : option DataFrame;
  yaml_dict : option YamlDict;
  warn_msg : string;
  tree_view : option TreeModel;
  table_window : option TableWidget;
  wid : list string;
  last_dir_setting : option string;
  trace : list Event;
  clicked_slots : list TreeModel;
  doubleClicked_slots : list TreeModel
}.

Definition active_selection (w : Window) : ActiveSelection :=
  {| sel_measurement := exp_data w;
     sel_condition := condition_df w;
     sel_visualization := visualization_df w;
     sel_simulation := simulation_df w |}.

Definition set_exp_data (v : option DataFrame) (w : Window) : Window :=
  mkWindow v (condition_df w) (visualization_df w) (simulation_df w) (yaml_dict w)
    (warn_msg w) (tree_view w) (table_window w) (wid w) (last_dir_setting w) (trace w)
    (clicked_slots w) (doubleClicked_slots w).

Definition set_condition_df (v : option DataFrame) (w : Window) : Window :=
  mkWindow (exp_data w) v (visualization_df w) (simulation_df w) (yaml_dict w)
    (warn_msg w) (tree_view w) (table_window w) (wid w) (last_dir_setting w) (trace w)
    (clicked_slots w) (doubleClicked_slots w).

Definition set_visualization_df (v : option DataFrame) (w : Window) : Window :=
  mkWindow (exp_data w) (condition_df w) v (simulation_df w) (yaml_dict w)
    (warn_msg w) (tree_view w) (table_window w) (wid w) (last_dir_setting w) (trace w)
    (clicked_slots w) (doubleClicked_slots w).

Definition set_simulation_df (v : option DataFrame) (w : Window) : Window :=
  mkWindow (exp_data w) (condition_df w) (visualization_df w) v (yaml_dict w)
    (warn_msg w) (tree_view w) (table_window w) (wid w) (last_dir_setting w) (trace w)
    (clicked_slots w) (doubleClicked_slots w).

Definition set_yaml_dict (v : option YamlDict) (w : Window) : Window :=
  mkWindow (exp_data w) (condition_df w) (visualization_df w) (simulation_df w) v
    (warn_msg w) (tree_view w) (table_window w) (wid w) (last_dir_setting w) (trace w)
    (clicked_slots w) (doubleClicked_slots w).

Definition set_warn_msg (v : string) (w : Window) : Window :=
  mkWindow (exp_data w) (condition_df w) (visualization_df w) (simulation_df w)
    (yaml_dict w) v (tree_view w) (table_window w) (wid w) (last_dir_setting w) (trace w)
    (clicked_slots w) (doubleClicked_slots w).

Definition set_tree_view (v : option TreeModel) (w : Window) : Window :=
  mkWindow (exp_data w) (condition_df w) (visualization_df w) (simulation_df w)
    (yaml_dict w) (warn_msg w) v (table_window w) (wid w) (last_dir_setting w) (trace w)
    (clicked_slots w) (doubleClicked_slots w).

Definition set_table_window (v : option TableWidget) (w : Window) : Window :=
  mkWindow (exp_data w) (condition_df w) (visualization_df w) (simulation_df w)
    (yaml_dict w) (warn_msg w) (tree_view w) v (wid w) (last_dir_setting w) (trace w)
    (clicked_slots w) (doubleClicked_slots w).

Definition set_wid (v : list string) (w : Window) : Window :=
  mkWindow (exp_data w) (condition_df w) (visualization_df w) (simulation_df w)
    (yaml_dict w) (warn_msg w) (tree_view w) (table_window w) v (last_dir_setting w) (trace w)
    (clicked_slots w) (doubleClicked_slots w).

Definition set_last_dir (v : option string) (w : Window) : Window :=
  mkWindow (exp_data w) (condition_df w) (visualization_df w) (simulation_df w)
    (yaml_dict w) (warn_msg w) (tree_view w) (table_window w) (wid w) v (trace w)
    (clicked_slots w) (doubleClicked_slots w).

Definition emit (e : Event) (w : Window) : Window :=
  mkWindow (exp_data w) (condition_df w) (visualization_df w) (simulation_df w)
    (yaml_dict w) (warn_msg w) (tree_view w) (table_window w) (wid w)
    (last_dir_setting w) (trace w ++ [e])
    (clicked_slots w) (doubleClicked_slots w).

(** [window.tree_view.clicked.connect(...)] with a lambda that captured
    [tree]: one more handler, none removed. *)
Definition connect_clicked (tree : TreeModel) (w : Window) : Window :=
  mkWindow (exp_data w) (condition_df w) (visualization_df w) (simulation_df w)
    (yaml_dict w) (warn_msg w) (tree_view w) (table_window w) (wid w)
    (last_dir_setting w) (trace w)
    (clicked_slots w ++ [tree]) (doubleClicked_slots w).

(** [window.tree_view.doubleClicked.connect(...)] *)
Definition connect_doubleClicked (tree : TreeModel) (w : Window) : Window :=
  mkWindow (exp_data w) (condition_df w) (visualization_df w) (simulation_df w)
    (yaml_dict w) (warn_msg w) (tree_view w) (table_window w) (wid w)
    (last_dir_setting w) (trace w)
    (clicked_slots w) (doubleClicked_slots w ++ [tree]).

(** ** Handlers as state transformers with exceptions *)

Definition M (A : Type) : Type := Window -> (Exn + A) * Window.

Definition ret {A : Type} (x : A) : M A := fun w => (inr x, w).

Definition bind {A B : Type} (m : M A) (f : A -> M B) : M B :=
  fun w =>
    match m w with
    | (inr x, w') => f x w'
    | (inl e, w') => (inl e, w')
    end.

(** A pure computation that may raise. *)
Definition lift {A : Type} (r : Exn + A) : M A := fun w => (r, w).

Definition gets {A : Type} (f : Window -> A) : M A := fun w => (inr (f w), w).

Definition modify (f : Window -> Window) : M unit := fun w => (inr tt, f w).

Definition when (b : bool) (m : M unit) : M unit := if b then m else ret tt.

Declare Scope handler_scope.
Delimit Scope handler_scope with handler.
Notation "x <- m ;; k" := (bind m (fun x => k))
  (at level 61, m at next level, right associativity) : handler_scope.
Notation "m ;; k" := (bind m (fun _ => k))
  (at level 61, right associativity) : handler_scope.
Local Open Scope handler_scope.

(** The outcome of a handler and the window it leaves. *)
Definition outcome {A : Type} (m : M A) (w : Window) : Exn + A := fst (m w).
Definition exec {A : Type} (m : M A) (w : Window) : Window := snd (m w).

(** ** Collaborators on the main window *)

(** Modelled from the spec: [window.add_plots()], a method of the main
    window class, which this module calls and does not define.  It is the
    outbound signal [refreshPlots(ActiveSelection)] to the plotting
    subsystem: it reads the four tables and changes none of them. *)
Definition add_plots : M unit :=
  fun w => (inr tt, emit (RefreshPlots (active_selection w)) w).

(** Modelled from the spec: [window.add_warning(message)], a method of the
    main window class, which this module calls and does not define.  It
    surfaces the message in the persistent warning area, whose text is
    [window.warn_msg]. *)
Definition add_warning (message : string) : M unit :=
  modify (fun w => set_warn_msg (warn_msg w ++ message) w).

(** [window.warn_msg.setText(text)] *)
Definition setText (text : string) : M unit := modify (set_warn_msg text).

Fixpoint remove_string (x : string) (l : list string) : list string :=
  match l with
  | [] => []
  | y :: rest => if String.eqb x y then remove_string x rest else y :: remove_string x rest
  end.

Fixpoint insert_at {A : Type} (index : nat) (x : A) (l : list A) : list A :=
  match index, l with
  | 0, _ => x :: l
  | S i, [] => [x]
  | S i, y :: rest => y :: insert_at i x rest
  end.

(** [window.wid.insertWidget(index, widget)] on the splitter: a widget
    already in it is moved, an index past the end appends. *)
Definition insertWidget (index : nat) (widget : string) : M unit :=
  modify (fun w => set_wid (insert_at index widget (remove_string widget (wid w))) w).

Definition plot2_widget : string := "plot2_widget".

(** ** The module's functions *)

(** [pop_up_table_view(window, df)] *)
Definition pop_up_table_view (frame : DataFrame) : M unit :=
  modify (set_table_window (Some (newTableWidget frame))) ;;
  modify (fun w => set_table_window
                     (option_map (setGeometry (100, 100, 800, 400)) (table_window w)) w) ;;
  modify (fun w => set_table_window (option_map show (table_window w)) w).

(** [exchange_dataframe_on_click(index, model, window)] *)
Definition exchange_dataframe_on_click (index : QModelIndex) (tree : TreeModel) : M unit :=
  let name := display_data tree index in
  let frame := user_data tree index in
  let parent := parent_of index in
  let parent_name := display_data tree parent in
  let is_key key :=
    match parent_name with Some p => String.eqb p key | None => false end in
  when (is_key MEASUREMENT_FILES) (modify (set_exp_data frame)) ;;
  when (is_key VISUALIZATION_FILES) (modify (set_visualization_df frame)) ;;
  when (is_key CONDITION_FILES) (modify (set_condition_df frame)) ;;
  add_plots.

(** [display_table_on_doubleclick(index, model, window)] *)
Definition display_table_on_doubleclick (index : QModelIndex) (tree : TreeModel) : M unit :=
  let name := display_data tree index in
  let frame := user_data tree index in
  match frame with
  | Some d => pop_up_table_view d
  | None => ret tt
  end.

Section Handlers.

Variable petab : Petab.

(** [str(Path.home())] *)
Variable home : string.

(** A call of a PEtab loader: the read is recorded, then the loader's
    result or exception is the call's. *)
Definition load (kind : FileKind) (loader : string -> Exn + DataFrame)
    (path : string) : M DataFrame :=
  modify (emit (Load kind path)) ;;
  lift (loader path).

(** The body of the inner loop of [table_tree_view], lines 132 to 140:
    the frame stored in the leaf of [filename] under [key]. *)
Definition leaf_frame (key folder_path filename : string) : M (option DataFrame) :=
  let path := (folder_path ++ "/" ++ filename)%string in
  let frame := None in
  frame <- (if String.eqb key MEASUREMENT_FILES
            then d <- load MeasurementFile (get_measurement_df petab) path ;; ret (Some d)
            else ret frame) ;;
  frame <- (if String.eqb key VISUALIZATION_FILES
            then d <- load VisualizationFile (get_visualization_df petab) path ;; ret (Some d)
            else ret frame) ;;
  frame <- (if String.eqb key CONDITION_FILES
            then d <- load ConditionFile (get_condition_df petab) path ;; ret (Some d)
            else ret frame) ;;
  frame <- (if String.eqb key OBSERVABLE_FILES
            then d <- load ObservableFile (get_observable_df petab) path ;; ret (Some d)
            else ret frame) ;;
  ret frame.

(** [for filename in window.yaml_dict[key]] *)
Fixpoint branch_leaves (key folder_path : string) (filenames : list string)
    : M (list Leaf) :=
  match filenames with
  | [] => ret []
  | filename :: rest =>
      frame <- leaf_frame key folder_path filename ;;
      leaves <- branch_leaves key folder_path rest ;;
      ret ({| leaf_name := filename; leaf_data := frame |} :: leaves)
  end.

(** [for key in window.yaml_dict], over the items still to visit. *)
Fixpoint tree_branches (folder_path : string) (items : YamlDict) : M (list Branch) :=
  match items with
  | [] => ret []
  | (key, filenames) :: rest =>
      leaves <- branch_leaves key folder_path filenames ;;
      branches <- tree_branches folder_path rest ;;
      ret ({| branch_name := key; branch_rows := leaves |} :: branches)
  end.

(** [table_tree_view(window, folder_path)].  The model is built in a
    local and given to the tree view at the end; then a lambda calling
    [exchange_dataframe_on_click] and one calling
    [display_table_on_doubleclick], both on that model, are connected to
    the view's signals, in addition to those of earlier calls. *)
Definition table_tree_view (folder_path : string) : M unit :=
  yd <- gets yaml_dict ;;
  items <- lift (match yd with Some d => inr d | None => inl TypeError end) ;;
  branches <- tree_branches folder_path items ;;
  sim <- gets simulation_df ;;
  let tree :=
    match sim with
    | Some _ =>
        branches ++ [ {| branch_name := "simulation_files";
                         branch_rows := [ {| leaf_name := "simulation_file";
                                             leaf_data := sim |} ] |} ]
    | None => branches
    end in
  modify (set_tree_view (Some tree)) ;;
  modify (connect_clicked tree) ;;
  modify (connect_doubleClicked tree).

(** The start directory of a file dialog: the stored ["last_dir"] if
    there is one, the home directory otherwise. *)
Definition start_dir (w : Window) : string :=
  match last_dir_setting w with
  | Some d => d
  | None => home
  end.

(** [show_yaml_dialog(self, window)].  [getOpenFileName] is the user's
    answer to the dialog opened on the start directory; the empty string
    is a cancelled dialog.  [table_tree_view] returns [None], which is
    what [window.listWidget] receives. *)
Definition show_yaml_dialog (getOpenFileName : string -> string) : M unit :=
  home_dir <- gets start_dir ;;
  let file_name := getOpenFileName home_dir in
  if String.eqb file_name "" then ret tt
  else
    let last_dir := dirname file_name in
    modify (set_last_dir (Some last_dir)) ;;
    setText "" ;;
    modify (emit (Load YamlFile file_name)) ;;
    doc <- lift (load_yaml petab file_name) ;;
    problems <- lift (getitem doc "problems") ;;
    yd <- lift (first problems) ;;
    modify (set_yaml_dict (Some yd)) ;;
    files <- lift (getitem yd MEASUREMENT_FILES) ;;
    file <- lift (first files) ;;
    d <- load MeasurementFile (get_measurement_df petab) (last_dir ++ "/" ++ file)%string ;;
    modify (set_exp_data (Some d)) ;;
    files <- lift (getitem yd CONDITION_FILES) ;;
    file <- lift (first files) ;;
    d <- load ConditionFile (get_condition_df petab) (last_dir ++ "/" ++ file)%string ;;
    modify (set_condition_df (Some d)) ;;
    modify (set_simulation_df None) ;;
    (if dict_mem VISUALIZATION_FILES yd
     then
       files <- lift (getitem yd VISUALIZATION_FILES) ;;
       file <- lift (first files) ;;
       d <- load VisualizationFile (get_visualization_df petab) (last_dir ++ "/" ++ file)%string ;;
       modify (set_visualization_df (Some d))
     else
       modify (set_visualization_df None) ;;
       add_warning "The YAML file contains no visualization file (default plotted)") ;;
    add_plots ;;
    table_tree_view last_dir.

(** [show_simulation_dialog(self, window)] *)
Definition show_simulation_dialog (getOpenFileName : string -> string) : M unit :=
  home_dir <- gets start_dir ;;
  let file_name := getOpenFileName home_dir in
  if String.eqb file_name "" then ret tt
  else
    measurement <- gets exp_data ;;
    match measurement with
    | None => add_warning "Please open a YAML file first."
    | Some exp =>
        setText "" ;;
        sim_data <- load SimulationFile (get_simulation_df petab) file_name ;;
        cond <- gets condition_df ;;
        sim_data <- lift (check_ex_exp_columns petab sim_data cond) ;;
        let sim_data :=
          if negb (has_column REPLICATE_ID exp) && has_column REPLICATE_ID sim_data
          then drop REPLICATE_ID sim_data
          else sim_data in
        modify (set_simulation_df (Some sim_data)) ;;
        add_plots ;;
        insertWidget 1 plot2_widget ;;
        table_tree_view (dirname file_name)
    end ;;
    let last_dir := dirname file_name in
    modify (set_last_dir (Some last_dir)).

End Handlers.

(** ** An example installation *)

(** A small file system and a stand-in for the PEtab library over it, used
    to run the handlers on concrete inputs. *)
Module Fixture.

Definition column (name : string) (cells : list string) : string * list string :=
  (name, cells).

Definition meas1 : DataFrame :=
  {| df_rows := 2;
     df_data := [ column "observableId" ["obs_a"; "obs_a"];
                  column "simulationConditionId" ["c0"; "c0"];
                  column "measurement" ["0.7"; "0.9"];
                  column "time" ["0"; "10"] ] |}.

Definition meas2 : DataFrame :=
  {| df_rows := 2;
     df_data := [ column "observableId" ["obs_a"; "obs_a"];
                  column "simulationConditionId" ["c0"; "c0"];
                  column "measurement" ["0.6"; "0.8"];
                  column "time" ["0"; "10"];
                  column "replicateId" ["1"; "2"] ] |}.

Definition cond : DataFrame :=
  {| df_rows := 1;
     df_data := [ column "conditionId" ["c0"]; column "conditionName" ["control"] ] |}.

Definition obs : DataFrame :=
  {| df_rows := 1;
     df_data := [ column "observableId" ["obs_a"];
                  column "observableFormula" ["A"];
                  column "noiseFormula" ["1"] ] |}.

Definition vis : DataFrame :=
  {| df_rows := 1;
     df_data := [ column "plotId" ["plot1"]; column "yValues" ["obs_a"] ] |}.

Definition sim : DataFrame :=
  {| df_rows := 2;
     df_data := [ column "observableId" ["obs_a"; "obs_a"];
                  column "simulationConditionId" ["c0"; "c0"];
                  column "simulation" ["0.72"; "0.88"];
                  column "time" ["0"; "10"];
                  column "replicateId" ["1"; "1"] ] |}.

Definition problem : YamlDict :=
  [ ("sbml_files", ["model.xml"]);
    (MEASUREMENT_FILES, ["meas1.tsv"; "meas2.tsv"]);
    (CONDITION_FILES, ["cond.tsv"]);
    (OBSERVABLE_FILES, ["obs.tsv"]);
    (VISUALIZATION_FILES, ["vis.tsv"]) ].

Definition problem_novis : YamlDict :=
  [ ("sbml_files", ["model.xml"]);
    (MEASUREMENT_FILES, ["meas1.tsv"; "meas2.tsv"]);
    (CONDITION_FILES, ["cond.tsv"]);
    (OBSERVABLE_FILES, ["obs.tsv"]) ].

Definition problem_nocond : YamlDict :=
  [ (MEASUREMENT_FILES, ["meas2.tsv"]);
    (CONDITION_FILES, ["missing.tsv"]) ].

(** The files on disk, by kind. *)
Definition manifests : dict YamlDoc :=
  [ ("/data/problem.yaml", [("problems", [problem])]);
    ("/data/novis.yaml", [("problems", [problem_novis])]);
    ("/data/nocond.yaml", [("problems", [problem_nocond])]) ].

Definition measurement_files : dict DataFrame :=
  [ ("/data/meas1.tsv", meas1); ("/data/meas2.tsv", meas2) ].
Definition condition_files : dict DataFrame := [ ("/data/cond.tsv", cond) ].
Definition observable_files : dict DataFrame := [ ("/data/obs.tsv", obs) ].
Definition visualization_files : dict DataFrame := [ ("/data/vis.tsv", vis) ].
Definition simulation_files : dict DataFrame :=
  [ ("/data/sim.tsv", sim); ("/results/sim.tsv", sim) ].

Definition read {V : Type} (files : dict V) (path : string) : Exn + V :=
  match dict_find path files with
  | Some v => inr v
  | None => inl (PetabError ("cannot read " ++ path))
  end.

Definition mandatory : list string :=
  [ "observableId"; "simulationConditionId"; "simulation"; "time" ].

Definition defaults : list (string * string) :=
  [ ("preequilibrationConditionId", "");
    ("observableParameters", "");
    ("noiseParameters", "0");
    ("observableTransformation", "lin");
    ("noiseDistribution", "normal") ].

Definition add_default (frame : DataFrame) (d : string * string) : DataFrame :=
  if has_column (fst d) frame then frame
  else {| df_rows := df_rows frame;
          df_data := df_data frame ++ [ (fst d, repeat (snd d) (df_rows frame)) ] |}.

(** A stand-in for the library's column check, used only to run the
    examples; the properties of the handlers are proved for every
    [Petab].  It refuses a table without one of the mandatory columns and
    adds a missing optional column with its default in every row.  The
    measurement table is not among its arguments. *)
Definition check (frame : DataFrame) (conditions : option DataFrame) : Exn + DataFrame :=
  match filter (fun c => negb (has_column c frame)) mandatory with
  | [] => inr (fold_left add_default defaults frame)
  | c :: _ => inl (PetabError ("Column " ++ c ++ " is missing in simulation file."))
  end.

Definition petab : Petab :=
  {| load_yaml := read manifests;
     get_measurement_df := read measurement_files;
     get_visualization_df := read visualization_files;
     get_condition_df := read condition_files;
     get_observable_df := read observable_files;
     get_simulation_df := read simulation_files;
     check_ex_exp_columns := check |}.

Definition home : string := "/home/user".

(** The window before any file was opened. *)
Definition empty_window : Window :=
  {| exp_data := None; condition_df := None; visualization_df := None;
     simulation_df := None; yaml_dict := None; warn_msg := "";
     tree_view := None; table_window := None;
     wid := ["plot1_widget"]; last_dir_setting := None; trace := [];
   clicked_slots := []; doubleClicked_slots := [] |}.

(** The user picks [path] whatever directory the dialog opens on. *)
Definition pick (path : string) : string -> string := fun _ => path.

(** The window after the manifest [/data/problem.yaml] was opened. *)
Definition opened : Window :=
  Eval vm_compute in
    exec (show_yaml_dialog petab home (pick "/data/problem.yaml")) empty_window.

(** The tree the view shows then. *)
Definition tree : TreeModel :=
  Eval vm_compute in match tree_view opened with Some t => t | None => [] end.

(** A window that holds the manifest's problem and nothing else. *)
Definition parsed : Window := set_yaml_dict (Some problem) empty_window.

End Fixture.

(** ** Reading the trace *)

Definition is_load (e : Event) : bool :=
  match e with Load _ _ => true | RefreshPlots _ => false end.

(** The files read, in order. *)
Fixpoint loads (t : list Event) : list (FileKind * string) :=
  match t with
  | [] => []
  | Load k p :: rest => (k, p) :: loads rest
  | RefreshPlots _ :: rest => loads rest
  end.

(** The calls of [add_plots], in order, each with the tables it saw. *)
Fixpoint refreshes (t : list Event) : list ActiveSelection :=
  match t with
  | [] => []
  | Load _ _ :: rest => refreshes rest
  | RefreshPlots s :: rest => s :: refreshes rest
  end.

Definition refresh_count (w : Window) : nat := List.length (refreshes (trace w)).

(** The events a handler run from [w] added to the trace. *)
Definition new_events {A : Type} (m : M A) (w : Window) : list Event :=
  skipn (List.length (trace w)) (trace (exec m w)).

(** [w] with [evs] appended to its trace. *)
Definition log (evs : list Event) (w : Window) : Window :=
  mkWindow (exp_data w) (condition_df w) (visualization_df w) (simulation_df w)
    (yaml_dict w) (warn_msg w) (tree_view w) (table_window w) (wid w)
    (last_dir_setting w) (trace w ++ evs)
    (clicked_slots w) (doubleClicked_slots w).


(** ** What the tree of a manifest reads and holds *)

Section Tree.

Variable petab : Petab.

(** The loader [table_tree_view] uses for the files under [key], if any. *)
Definition leaf_kind (key : string) : option FileKind :=
  if String.eqb key MEASUREMENT_FILES then Some MeasurementFile
  else if String.eqb key VISUALIZATION_FILES then Some VisualizationFile
  else if String.eqb key CONDITION_FILES then Some ConditionFile
  else if String.eqb key OBSERVABLE_FILES then Some ObservableFile
  else None.

Definition loader (kind : FileKind) : string -> Exn + DataFrame :=
  match kind with
  | MeasurementFile => get_measurement_df petab
  | VisualizationFile => get_visualization_df petab
  | ConditionFile => get_condition_df petab
  | ObservableFile => get_observable_df petab
  | SimulationFile => get_simulation_df petab
  | YamlFile => fun _ => inl TypeError
  end.

Definition leaf_result (key path : string) : Exn + option DataFrame :=
  match leaf_kind key with
  | Some k =>
      match loader k path with
      | inr d => inr (Some d)
      | inl e => inl e
      end
  | None => inr None
  end.

Definition leaf_loads (key path : string) : list Event :=
  match leaf_kind key with
  | Some k => [Load k path]
  | None => []
  end.

Definition leaf_value (key path : string) : option DataFrame :=
  match leaf_result key path with
  | inr v => v
  | inl _ => None
  end.

Definition join (folder_path filename : string) : string :=
  (folder_path ++ "/" ++ filename)%string.

(** Every file the manifest names under a table category, as the tree
    reads it from [folder_path]. *)
Definition expected_loads (folder_path : string) (items : YamlDict) : list Event :=
  flat_map (fun item =>
              flat_map (fun filename => leaf_loads (fst item) (join folder_path filename))
                       (snd item))
           items.

Definition expected_branches (folder_path : string) (items : YamlDict) : list Branch :=
  map (fun item =>
         {| branch_name := fst item;
            branch_rows :=
              map (fun filename =>
                     {| leaf_name := filename;
                        leaf_data := leaf_value (fst item) (join folder_path filename) |})
                  (snd item) |})
      items.

(** Every file of the manifest loads from [folder_path]. *)
Definition loadable (folder_path : string) (items : YamlDict) : Prop :=
  forall key filenames filename,
    In (key, filenames) items -> In filename filenames ->
    exists v, leaf_result key (join folder_path filename) = inr v.

(** The same, decided. *)
Definition loadableb (folder_path : string) (items : YamlDict) : bool :=
  forallb (fun item =>
             forallb (fun filename =>
                        match leaf_result (fst item) (join folder_path filename) with
                        | inr _ => true
                        | inl _ => false
                        end)
                     (snd item))
          items.

(** The tree [table_tree_view] installs when every file loads. *)
Definition expected_tree (folder_path : string) (items : YamlDict)
    (sim : option DataFrame) : TreeModel :=
  match sim with
  | Some _ =>
      expected_branches folder_path items ++
      [ {| branch_name := "simulation_files";
           branch_rows := [ {| leaf_name := "simulation_file"; leaf_data := sim |} ] |} ]
  | None => expected_branches folder_path items
  end.

End Tree.

(** ** Valid manifests *)

(** [petab.load_yaml(file_name)["problems"][0]] *)
Definition manifest_problem (petab : Petab) (file_name : string) : Exn + YamlDict :=
  match load_yaml petab file_name with
  | inl e => inl e
  | inr doc =>
      match getitem doc "problems" with
      | inl e => inl e
      | inr problems => first problems
      end
  end.

(** [yaml_dict[key][0]] *)
Definition first_file (yd : YamlDict) (key : string) : Exn + string :=
  match getitem yd key with
  | inl e => inl e
  | inr files => first files
  end.

(** [loader(last_dir + "/" + yaml_dict[key][0])] *)
Definition first_table (loader : string -> Exn + DataFrame) (last_dir : string)
    (yd : YamlDict) (key : string) : Exn + DataFrame :=
  match first_file yd key with
  | inl e => inl e
  | inr file => loader (join last_dir file)
  end.

(** The manifest [file_name] is valid: it parses, its first problem is
    [yd], the first measurement and condition files load as [m] and [c],
    the first visualization file loads if the category is there, and every
    file the tree shows loads. *)
Record valid_manifest (petab : Petab) (file_name : string) (yd : YamlDict)
    (m c : DataFrame) : Prop := {
  vm_problem : manifest_problem petab file_name = inr yd;
  vm_measurement :
    first_table (get_measurement_df petab) (dirname file_name) yd MEASUREMENT_FILES = inr m;
  vm_condition :
    first_table (get_condition_df petab) (dirname file_name) yd CONDITION_FILES = inr c;
  vm_visualization :
    dict_mem VISUALIZATION_FILES yd = true ->
    exists v,
      first_table (get_visualization_df petab) (dirname file_name) yd VISUALIZATION_FILES
      = inr v;
  vm_tree : loadable petab (dirname file_name) yd
}.

(** ** The first exception of a handler *)

(** [r] and then [k]: the exception of [r] if it raises, [k] otherwise. *)
Definition and_then {A : Type} (r : Exn + A) (k : Exn + unit) : Exn + unit :=
  match r with
  | inl e => inl e
  | inr _ => k
  end.

(** The first exception a loader raises on the files of one key, in their
    order; [inr tt] when every file loads. *)
Fixpoint leaves_outcome (petab : Petab) (key folder_path : string)
    (filenames : list string) : Exn + unit :=
  match filenames with
  | [] => inr tt
  | filename :: rest =>
      and_then (leaf_result petab key (join folder_path filename))
               (leaves_outcome petab key folder_path rest)
  end.

(** The same over the keys of the manifest, in their order. *)
Fixpoint tree_outcome (petab : Petab) (folder_path : string) (items : YamlDict)
    : Exn + unit :=
  match items with
  | [] => inr tt
  | (key, filenames) :: rest =>
      and_then (leaves_outcome petab key folder_path filenames)
               (tree_outcome petab folder_path rest)
  end.

(** The first exception of building the tree for the manifest the window
    holds. *)
Definition rebuild_outcome (petab : Petab) (folder_path : string)
    (yd : option YamlDict) : Exn + unit :=
  match yd with
  | None => inl TypeError
  | Some items => tree_outcome petab folder_path items
  end.

(** The first exception among the steps of the manifest dialog on
    [file_name], in the order the handler takes them: the manifest and
    its first problem, the first measurement file, the first condition
    file, the first visualization file when the category is there, then
    every file of the tree. *)
Definition yaml_dialog_outcome (petab : Petab) (file_name : string) : Exn + unit :=
  match manifest_problem petab file_name with
  | inl e => inl e
  | inr yd =>
      let last_dir := dirname file_name in
      and_then (first_table (get_measurement_df petab) last_dir yd MEASUREMENT_FILES)
        (and_then (first_table (get_condition_df petab) last_dir yd CONDITION_FILES)
           (if dict_mem VISUALIZATION_FILES yd
            then and_then (first_table (get_visualization_df petab) last_dir yd
                             VISUALIZATION_FILES)
                          (tree_outcome petab last_dir yd)
            else tree_outcome petab last_dir yd))
  end.

(** The first exception among the steps of the simulation dialog on
    [file_name] in the window [w]: none when no measurement table is
    active; otherwise the simulation file, the column check, then every
    file of the tree, read from the simulation file's directory. *)
Definition simulation_dialog_outcome (petab : Petab) (file_name : string) (w : Window)
    : Exn + unit :=
  match exp_data w with
  | None => inr tt
  | Some _ =>
      match get_simulation_df petab file_name with
      | inl e => inl e
      | inr sim =>
          and_then (check_ex_exp_columns petab sim (condition_df w))
                   (rebuild_outcome petab (dirname file_name) (yaml_dict w))
      end
  end.

(** ** Further vocabulary *)

(** One emission of [window.tree_view.clicked] for an item of the tree
    the view shows: Qt calls the connected lambdas in the order they were
    connected.  Each lambda asks the model it captured.  The last one
    captured the model the view shows, which owns the clicked index; an
    earlier one captured the model of an earlier build, which does not
    own it and answers [None] to every question about it, as to the
    invalid index. *)
Fixpoint run_clicked (index : QModelIndex) (slots : list TreeModel) : M unit :=
  match slots with
  | [] => ret tt
  | tree :: rest =>
      match rest with
      | [] => exchange_dataframe_on_click index tree
      | _ :: _ =>
          exchange_dataframe_on_click InvalidIndex tree ;;
          run_clicked index rest
      end
  end.

Definition clicked (index : QModelIndex) : M unit :=
  slots <- gets clicked_slots ;;
  run_clicked index slots.


(** The number a string of decimal digits denotes, after the digits [acc]
    already read. *)
Fixpoint decimal_value (acc : nat) (s : string) : nat :=
  match s with
  | EmptyString => acc
  | String c rest => decimal_value (10 * acc + (nat_of_ascii c - 48)) rest
  end.

(** The integer a decimal numeral with an optional minus sign denotes. *)
Definition int_value (s : string) : Z :=
  match s with
  | EmptyString => 0%Z
  | String c rest =>
      if Ascii.eqb c "-" then (- Z.of_nat (decimal_value 0 rest))%Z
      else Z.of_nat (decimal_value 0 s)
  end.

(** The handler [m] leaves the attribute [f] of the window as it was,
    whatever its outcome. *)
Definition preserves {A B : Type} (f : Window -> B) (m : M A) : Prop :=
  forall w, f (snd (m w)) = f w.

(** An attribute that neither the trace nor the tree view nor its
    connected handlers are part of. *)
Definition plain {B : Type} (f : Window -> B) : Prop :=
  (forall evs w, f (log evs w) = f w) /\
  (forall tree w, f (set_tree_view tree w) = f w) /\
  (forall tree w, f (connect_clicked tree w) = f w) /\
  (forall tree w, f (connect_doubleClicked tree w) = f w).

(** More manifests for the example installation: one without the
    [problems] key, one with no problem, one whose problem names no
    measurement file, one with an empty list of them, and one whose
    visualization file is not on disk. *)
Module Cases.

Definition problem_nomeas : YamlDict :=
  [ (CONDITION_FILES, ["cond.tsv"]) ].

Definition problem_emptymeas : YamlDict :=
  [ (MEASUREMENT_FILES, []); (CONDITION_FILES, ["cond.tsv"]) ].

Definition problem_badvis : YamlDict :=
  [ (MEASUREMENT_FILES, ["meas2.tsv"]);
    (CONDITION_FILES, ["cond.tsv"]);
    (VISUALIZATION_FILES, ["missing_vis.tsv"]) ].

Definition problem_badmeas : YamlDict :=
  [ (MEASUREMENT_FILES, ["missing_meas.tsv"]); (CONDITION_FILES, ["cond.tsv"]) ].

Definition manifests : dict YamlDoc :=
  [ ("/data/badmeas.yaml", [("problems", [problem_badmeas])]);
    ("/data/noproblems.yaml", [("parameters", [])]);
    ("/data/empty.yaml", [("problems", [])]);
    ("/data/nomeas.yaml", [("problems", [problem_nomeas])]);
    ("/data/emptymeas.yaml", [("problems", [problem_emptymeas])]);
    ("/data/badvis.yaml", [("problems", [problem_badvis])]) ] ++ Fixture.manifests.

Definition petab : Petab :=
  {| load_yaml := Fixture.read manifests;
     get_measurement_df := get_measurement_df Fixture.petab;
     get_visualization_df := get_visualization_df Fixture.petab;
     get_condition_df := get_condition_df Fixture.petab;
     get_observable_df := get_observable_df Fixture.petab;
     get_simulation_df := get_simulation_df Fixture.petab;
     check_ex_exp_columns := check_ex_exp_columns Fixture.petab |}.

(** The window after [/data/sim.tsv] was attached to the opened manifest. *)
Definition attached : Window :=
  Eval vm_compute in
    exec (show_simulation_dialog Fixture.petab Fixture.home (Fixture.pick "/data/sim.tsv"))
         Fixture.opened.

End Cases.

(** * Properties *)

(** ** The trace *)

Lemma log_nil (w : Window) : log [] w = w.
Proof. destruct w; unfold log; simpl; rewrite app_nil_r; reflexivity. Qed.

Lemma log_log (evs1 evs2 : list Event) (w : Window) :
  log evs2 (log evs1 w) = log (evs1 ++ evs2) w.
Proof. unfold log; simpl; rewrite app_assoc; reflexivity. Qed.

Lemma emit_log (e : Event) (w : Window) : emit e w = log [e] w.
Proof. reflexivity. Qed.

Lemma active_selection_log (evs : list Event) (w : Window) :
  active_selection (log evs w) = active_selection w.
Proof. reflexivity. Qed.

Lemma refreshes_app (t1 t2 : list Event) :
  refreshes (t1 ++ t2) = refreshes t1 ++ refreshes t2.
Proof.
  induction t1 as [|e t1 IH]; simpl; [reflexivity|].
  destruct e; simpl; rewrite IH; reflexivity.
Qed.

Lemma loads_app (t1 t2 : list Event) : loads (t1 ++ t2) = loads t1 ++ loads t2.
Proof.
  induction t1 as [|e t1 IH]; simpl; [reflexivity|].
  destruct e; simpl; rewrite IH; reflexivity.
Qed.

Lemma refreshes_loads (evs : list Event) :
  forallb is_load evs = true -> refreshes evs = [].
Proof.
  induction evs as [|e evs IH]; simpl; [reflexivity|].
  destruct e; simpl; [exact IH | discriminate].
Qed.

Lemma skipn_length_app {A : Type} (l1 l2 : list A) :
  skipn (List.length l1) (l1 ++ l2) = l2.
Proof. induction l1 as [|x l1 IH]; simpl; [reflexivity | exact IH]. Qed.

Lemma leaf_loads_are_loads (key path : string) :
  forallb is_load (leaf_loads key path) = true.
Proof. unfold leaf_loads; destruct (leaf_kind key); reflexivity. Qed.

Lemma expected_loads_are_loads (folder_path : string) (items : YamlDict) :
  forallb is_load (expected_loads folder_path items) = true.
Proof.
  unfold expected_loads.
  induction items as [|[key filenames] items IH]; simpl; [reflexivity|].
  rewrite forallb_app, IH, andb_true_r.
  induction filenames as [|f filenames IHf]; simpl; [reflexivity|].
  rewrite forallb_app, IHf, andb_true_r. apply leaf_loads_are_loads.
Qed.

(** ** Building the tree *)

Section TreeFacts.

Variable petab : Petab.

(** One leaf: the loader of the key's category is called once on the
    joined path, and no other. *)
Lemma leaf_frame_run (key folder_path filename : string) (w : Window) :
  leaf_frame petab key folder_path filename w =
  (leaf_result petab key (join folder_path filename),
   log (leaf_loads key (join folder_path filename)) w).
Proof.
  unfold leaf_frame, leaf_result, leaf_loads, leaf_kind, join, load, bind, modify, lift, ret.
  destruct (String.eqb_spec key MEASUREMENT_FILES) as [->|_]; simpl.
  { destruct (get_measurement_df petab _); reflexivity. }
  destruct (String.eqb_spec key VISUALIZATION_FILES) as [->|_]; simpl.
  { destruct (get_visualization_df petab _); reflexivity. }
  destruct (String.eqb_spec key CONDITION_FILES) as [->|_]; simpl.
  { destruct (get_condition_df petab _); reflexivity. }
  destruct (String.eqb_spec key OBSERVABLE_FILES) as [->|_]; simpl.
  { destruct (get_observable_df petab _); reflexivity. }
  rewrite log_nil; reflexivity.
Qed.

(** Whatever happens, a branch only adds file reads to the trace. *)
Lemma branch_leaves_log (key folder_path : string) (filenames : list string) (w : Window) :
  exists evs,
    forallb is_load evs = true /\
    snd (branch_leaves petab key folder_path filenames w) = log evs w.
Proof.
  revert w; induction filenames as [|f filenames IH]; intros w; simpl.
  - exists []; rewrite log_nil; auto.
  - unfold bind. rewrite leaf_frame_run.
    destruct (leaf_result petab key (join folder_path f)) as [e|v]; simpl.
    + eexists; split; [apply leaf_loads_are_loads | reflexivity].
    + destruct (IH (log (leaf_loads key (join folder_path f)) w)) as [evs [Hl Hw]].
      destruct (branch_leaves petab key folder_path filenames _) as [[e|ls] w']; simpl in *;
        subst w'; rewrite log_log; eexists; (split; [|reflexivity]);
        rewrite forallb_app, Hl, leaf_loads_are_loads; reflexivity.
Qed.

Lemma tree_branches_log (folder_path : string) (items : YamlDict) (w : Window) :
  exists evs,
    forallb is_load evs = true /\
    snd (tree_branches petab folder_path items w) = log evs w.
Proof.
  revert w; induction items as [|[key filenames] items IH]; intros w; simpl.
  - exists []; rewrite log_nil; auto.
  - unfold bind.
    destruct (branch_leaves_log key folder_path filenames w) as [evs1 [Hl1 Hw1]].
    destruct (branch_leaves petab key folder_path filenames w) as [[e|ls] w1]; simpl in *;
      subst w1.
    + exists evs1; auto.
    + destruct (IH (log evs1 w)) as [evs2 [Hl2 Hw2]].
      destruct (tree_branches petab folder_path items _) as [[e|bs] w2]; simpl in *;
        subst w2; rewrite log_log; eexists; (split; [|reflexivity]);
        rewrite forallb_app, Hl1, Hl2; reflexivity.
Qed.

(** When every file loads, a branch reads each of its files once, in
    order, and holds the frames. *)
Lemma branch_leaves_loadable (key folder_path : string) (filenames : list string)
    (w : Window) :
  (forall f, In f filenames -> exists v, leaf_result petab key (join folder_path f) = inr v) ->
  branch_leaves petab key folder_path filenames w =
  (inr (map (fun f => {| leaf_name := f;
                         leaf_data := leaf_value petab key (join folder_path f) |})
            filenames),
   log (flat_map (fun f => leaf_loads key (join folder_path f)) filenames) w).
Proof.
  revert w; induction filenames as [|f filenames IH]; intros w H; simpl.
  - unfold ret; rewrite log_nil; reflexivity.
  - unfold bind. rewrite leaf_frame_run.
    destruct (H f (or_introl eq_refl)) as [v Hv].
    unfold leaf_value. rewrite Hv.
    rewrite IH by (intros g Hg; apply H; right; exact Hg).
    unfold ret; rewrite log_log; reflexivity.
Qed.

Lemma tree_branches_loadable (folder_path : string) (items : YamlDict) (w : Window) :
  loadable petab folder_path items ->
  tree_branches petab folder_path items w =
  (inr (expected_branches petab folder_path items),
   log (expected_loads folder_path items) w).
Proof.
  revert w; induction items as [|[key filenames] items IH]; intros w H; simpl.
  - unfold ret; rewrite log_nil; reflexivity.
  - unfold bind.
    rewrite branch_leaves_loadable
      by (intros f Hf; apply (H key filenames f); [left; reflexivity | exact Hf]).
    rewrite IH
      by (intros k fs f Hk Hf; apply (H k fs f); [right; exact Hk | exact Hf]).
    unfold ret; rewrite log_log; reflexivity.
Qed.

Lemma loadableb_sound (folder_path : string) (items : YamlDict) :
  loadableb petab folder_path items = true -> loadable petab folder_path items.
Proof.
  unfold loadableb, loadable. intros H key filenames filename Hk Hf.
  rewrite forallb_forall in H. specialize (H _ Hk). simpl in H.
  rewrite forallb_forall in H. specialize (H _ Hf).
  destruct (leaf_result petab key (join folder_path filename)) as [e|v];
    [discriminate | exists v; reflexivity].
Qed.

(** [table_tree_view] changes the tree view, the connected handlers and
    the trace and nothing else, and adds only file reads to the trace,
    whether it returns or raises. *)
Lemma table_tree_view_frame (folder_path : string) (w : Window) :
  exists evs,
    forallb is_load evs = true /\
    (exec (table_tree_view petab folder_path) w = log evs w \/
     exists tree,
       exec (table_tree_view petab folder_path) w =
       connect_doubleClicked tree
         (connect_clicked tree (set_tree_view (Some tree) (log evs w)))).
Proof.
  unfold exec, table_tree_view, bind, gets, lift, modify.
  destruct (yaml_dict w) as [items|]; simpl.
  - destruct (tree_branches_log folder_path items w) as [evs [Hl Hw]].
    destruct (tree_branches petab folder_path items w) as [[e|bs] w1]; simpl in *; subst w1.
    + exists evs; auto.
    + exists evs; split; [exact Hl|]. right. eexists; reflexivity.
  - exists []; rewrite log_nil; auto.
Qed.

(** When every file of the manifest loads, [table_tree_view] returns
    and installs the expected tree. *)
Lemma table_tree_view_loadable (folder_path : string) (items : YamlDict) (w : Window) :
  yaml_dict w = Some items ->
  loadable petab folder_path items ->
  table_tree_view petab folder_path w =
  (inr tt,
   connect_doubleClicked (expected_tree petab folder_path items (simulation_df w))
     (connect_clicked (expected_tree petab folder_path items (simulation_df w))
        (set_tree_view (Some (expected_tree petab folder_path items (simulation_df w)))
                       (log (expected_loads folder_path items) w)))).
Proof.
  intros Hy Hl.
  unfold table_tree_view, bind, gets, lift, modify. rewrite Hy; simpl.
  rewrite tree_branches_loadable by exact Hl. simpl.
  unfold expected_tree. destruct (simulation_df w); reflexivity.
Qed.

End TreeFacts.

(** ** The manifest dialog *)

Ltac run :=
  unfold add_plots, add_warning, setText, insertWidget, load,
         when, bind, ret, lift, gets, modify in *; simpl in *.

Lemma first_table_inv (ld : string -> Exn + DataFrame) (dir : string) (yd : YamlDict)
    (key : string) (d : DataFrame) :
  first_table ld dir yd key = inr d ->
  exists files file,
    getitem yd key = inr files /\ first files = inr file /\
    ld (dir ++ String "/" file)%string = inr d.
Proof.
  unfold first_table, first_file.
  destruct (getitem yd key) as [e|files] eqn:E1; [discriminate|].
  destruct (first files) as [e|file] eqn:E2; [discriminate|].
  intros H; exists files, file; auto.
Qed.

Lemma manifest_problem_inv (petab : Petab) (file_name : string) (yd : YamlDict) :
  manifest_problem petab file_name = inr yd ->
  exists doc problems,
    load_yaml petab file_name = inr doc /\ getitem doc "problems" = inr problems /\
    first problems = inr yd.
Proof.
  unfold manifest_problem.
  destruct (load_yaml petab file_name) as [e|doc] eqn:E1; [discriminate|].
  destruct (getitem doc "problems") as [e|problems] eqn:E2; [discriminate|].
  intros H; exists doc, problems; auto.
Qed.

Lemma refreshes_trace_loads (t evs : list Event) :
  forallb is_load evs = true -> refreshes (t ++ evs) = refreshes t.
Proof.
  intros H. rewrite refreshes_app, (refreshes_loads _ H), app_nil_r. reflexivity.
Qed.

Section DialogFacts.

Variable petab : Petab.
Variable home : string.

(** Opening a valid manifest returns, installs the first measurement and
    condition tables, clears the simulation table, installs the first
    visualization table or warns that there is none, and refreshes the
    plots once, on the tables just installed. *)
Lemma show_yaml_dialog_valid (dialog : string -> string) (w : Window)
    (file_name : string) (yd : YamlDict) (m c : DataFrame) :
  dialog (start_dir home w) = file_name ->
  file_name <> "" ->
  valid_manifest petab file_name yd m c ->
  let r := show_yaml_dialog petab home dialog in
  outcome r w = inr tt /\
  exp_data (exec r w) = Some m /\
  condition_df (exec r w) = Some c /\
  simulation_df (exec r w) = None /\
  yaml_dict (exec r w) = Some yd /\
  tree_view (exec r w) = Some (expected_tree petab (dirname file_name) yd None) /\
  (dict_mem VISUALIZATION_FILES yd = false ->
   visualization_df (exec r w) = None /\
   warn_msg (exec r w) = "The YAML file contains no visualization file (default plotted)" /\
   refreshes (trace (exec r w)) =
   refreshes (trace w) ++ [ mkActiveSelection (Some m) (Some c) None None ]) /\
  (dict_mem VISUALIZATION_FILES yd = true ->
   exists v,
     first_table (get_visualization_df petab) (dirname file_name) yd VISUALIZATION_FILES
     = inr v /\
     visualization_df (exec r w) = Some v /\
     warn_msg (exec r w) = "" /\
     refreshes (trace (exec r w)) =
     refreshes (trace w) ++ [ mkActiveSelection (Some m) (Some c) (Some v) None ]).
Proof.
  intros Hfile Hne [Hp Hm Hc Hv Ht].
  destruct (manifest_problem_inv _ _ _ Hp) as (doc & problems & Hd & Hps & Hyd).
  destruct (first_table_inv _ _ _ _ _ Hm) as (mfs & mf & Hm1 & Hm2 & Hm3).
  destruct (first_table_inv _ _ _ _ _ Hc) as (cfs & cf & Hc1 & Hc2 & Hc3).
  cbv zeta. unfold outcome, exec.
  destruct (show_yaml_dialog petab home dialog w) as [r w'] eqn:E.
  unfold show_yaml_dialog in E. run. rewrite Hfile in E.
  destruct (String.eqb_spec file_name "") as [E0|_]; [contradiction|].
  rewrite Hd in E; simpl in E. rewrite Hps in E; simpl in E. rewrite Hyd in E; simpl in E.
  rewrite Hm1 in E; simpl in E. rewrite Hm2 in E; simpl in E. rewrite Hm3 in E; simpl in E.
  rewrite Hc1 in E; simpl in E. rewrite Hc2 in E; simpl in E. rewrite Hc3 in E; simpl in E.
  destruct (dict_mem VISUALIZATION_FILES yd) eqn:Hmem.
  - destruct (Hv eq_refl) as [v Hv'].
    destruct (first_table_inv _ _ _ _ _ Hv') as (vfs & vf & Hv1 & Hv2 & Hv3).
    rewrite Hv1 in E; simpl in E. rewrite Hv2 in E; simpl in E. rewrite Hv3 in E; simpl in E.
    rewrite table_tree_view_loadable with (items := yd) in E by (try reflexivity; exact Ht).
    injection E as <- <-. simpl.
    repeat split; try reflexivity; try discriminate.
    intros _. exists v. split; [exact Hv'|]. repeat split; try reflexivity.
    rewrite (refreshes_trace_loads _ _ (expected_loads_are_loads _ _)).
    repeat rewrite refreshes_app. simpl. repeat rewrite app_nil_r. reflexivity.
  - rewrite table_tree_view_loadable with (items := yd) in E by (try reflexivity; exact Ht).
    injection E as <- <-. simpl.
    repeat split; try reflexivity; try discriminate.
    rewrite (refreshes_trace_loads _ _ (expected_loads_are_loads _ _)).
    repeat rewrite refreshes_app. simpl. repeat rewrite app_nil_r. reflexivity.
Qed.

End DialogFacts.

(** ** The simulation dialog *)

Lemma has_column_drop (name dropped : string) (frame : DataFrame) :
  has_column name (drop dropped frame) =
  if String.eqb dropped name then false else has_column name frame.
Proof.
  unfold has_column, columns, drop; simpl.
  induction (df_data frame) as [|[col cells] rest IH]; simpl.
  - destruct (String.eqb dropped name); reflexivity.
  - destruct (String.eqb_spec dropped col) as [->|Hd]; simpl.
    + rewrite IH. destruct (String.eqb_spec col name) as [->|Hn].
      * reflexivity.
      * destruct (String.eqb_spec name col) as [->|_]; [contradiction | reflexivity].
    + rewrite IH. destruct (String.eqb_spec dropped name) as [->|Hn].
      * destruct (String.eqb_spec name col) as [->|_]; [contradiction | reflexivity].
      * reflexivity.
Qed.

Lemma skipn_all_length {A : Type} (l : list A) : skipn (List.length l) l = [].
Proof. induction l as [|x l IH]; simpl; [reflexivity | exact IH]. Qed.

Section SimulationFacts.

Variable petab : Petab.
Variable home : string.

(** The simulation dialog on a window with a measurement table, up to
    the rebuilding of the tree: the file is read, checked, stripped of
    the replicate column where the measurement table has none, stored,
    plotted, and the tree is rebuilt from the simulation file's
    directory. *)
Lemma show_simulation_dialog_attach (dialog : string -> string) (w : Window)
    (file_name : string) (exp sim chk : DataFrame) :
  dialog (start_dir home w) = file_name ->
  file_name <> "" ->
  exp_data w = Some exp ->
  get_simulation_df petab file_name = inr sim ->
  check_ex_exp_columns petab sim (condition_df w) = inr chk ->
  let installed :=
    if negb (has_column REPLICATE_ID exp) && has_column REPLICATE_ID chk
    then drop REPLICATE_ID chk else chk in
  let w1 := set_simulation_df (Some installed)
              (emit (Load SimulationFile file_name) (set_warn_msg "" w)) in
  let w2 := set_wid (insert_at 1 plot2_widget (remove_string plot2_widget (wid w1)))
              (emit (RefreshPlots (active_selection w1)) w1) in
  show_simulation_dialog petab home dialog w =
  match table_tree_view petab (dirname file_name) w2 with
  | (inr _, w3) => (inr tt, set_last_dir (Some (dirname file_name)) w3)
  | (inl e, w3) => (inl e, w3)
  end.
Proof.
  intros Hfile Hne Hexp Hsim Hchk. cbv zeta.
  unfold show_simulation_dialog. run. rewrite Hfile.
  destruct (String.eqb_spec file_name "") as [E0|_]; [contradiction|].
  rewrite Hexp; simpl. rewrite Hsim; simpl. rewrite Hchk; simpl.
  match goal with
  | |- context [table_tree_view petab ?d ?s] =>
      destruct (table_tree_view petab d s) as [[e|[]] w3]
  end; reflexivity.
Qed.

(** Rebuilding the tree leaves the four tables, the warning text and
    the open view as they are. *)
Lemma table_tree_view_keeps (folder_path : string) (w : Window) :
  let w' := snd (table_tree_view petab folder_path w) in
  active_selection w' = active_selection w /\
  warn_msg w' = warn_msg w /\
  table_window w' = table_window w /\
  yaml_dict w' = yaml_dict w /\
  refreshes (trace w') = refreshes (trace w).
Proof.
  cbv zeta.
  destruct (table_tree_view_frame petab folder_path w) as [evs [Hl [H|[tree H]]]];
    unfold exec in H; rewrite H; simpl;
    rewrite (refreshes_trace_loads _ _ Hl); repeat split; reflexivity.
Qed.

(** What a successful attach leaves, whether or not the tree could be
    rebuilt afterwards. *)
Lemma show_simulation_dialog_attached (dialog : string -> string) (w : Window)
    (file_name : string) (exp sim chk : DataFrame) :
  dialog (start_dir home w) = file_name ->
  file_name <> "" ->
  exp_data w = Some exp ->
  get_simulation_df petab file_name = inr sim ->
  check_ex_exp_columns petab sim (condition_df w) = inr chk ->
  let installed :=
    if negb (has_column REPLICATE_ID exp) && has_column REPLICATE_ID chk
    then drop REPLICATE_ID chk else chk in
  let selection :=
    mkActiveSelection (Some exp) (condition_df w) (visualization_df w) (Some installed) in
  let w' := exec (show_simulation_dialog petab home dialog) w in
  active_selection w' = selection /\
  refreshes (trace w') = refreshes (trace w) ++ [selection] /\
  warn_msg w' = "".
Proof.
  intros Hfile Hne Hexp Hsim Hchk. cbv zeta. unfold exec.
  rewrite (show_simulation_dialog_attach dialog w file_name exp sim chk
             Hfile Hne Hexp Hsim Hchk).
  cbv zeta.
  match goal with
  | |- context [table_tree_view petab ?d ?s] =>
      pose proof (table_tree_view_keeps d s) as K;
      destruct (table_tree_view petab d s) as [[e|u] w3]
  end; cbv zeta in K; destruct K as (Ks & Kw & _ & _ & Kr); simpl snd in *.
  all: change (active_selection (set_last_dir (Some (dirname file_name)) w3))
         with (active_selection w3);
       change (trace (set_last_dir (Some (dirname file_name)) w3)) with (trace w3);
       change (warn_msg (set_last_dir (Some (dirname file_name)) w3)) with (warn_msg w3);
       rewrite Ks, Kw, Kr;
       unfold active_selection, set_wid, emit, set_simulation_df, set_warn_msg; simpl;
       rewrite Hexp;
       repeat rewrite refreshes_app; simpl; rewrite app_nil_r;
       repeat split; reflexivity.
Qed.

End SimulationFacts.

(** Whatever the library and the files: when the attach succeeds and the
    tree can be rebuilt, the files of the manifest are read from the
    directory of the simulation file. *)
Lemma attach_reads_tree_from_simulation_directory (petab : Petab) (home : string)
    (dialog : string -> string) (w : Window) (file_name : string)
    (exp sim chk : DataFrame) (items : YamlDict) :
  dialog (start_dir home w) = file_name ->
  file_name <> "" ->
  exp_data w = Some exp ->
  get_simulation_df petab file_name = inr sim ->
  check_ex_exp_columns petab sim (condition_df w) = inr chk ->
  yaml_dict w = Some items ->
  loadable petab (dirname file_name) items ->
  loads (new_events (show_simulation_dialog petab home dialog) w) =
  (SimulationFile, file_name) :: loads (expected_loads (dirname file_name) items).
Proof.
  intros Hfile Hne Hexp Hsim Hchk Hy Hl. unfold new_events, exec.
  rewrite (show_simulation_dialog_attach petab home dialog w file_name exp sim chk
             Hfile Hne Hexp Hsim Hchk).
  cbv zeta.
  rewrite table_tree_view_loadable with (items := items) by (try exact Hy; exact Hl).
  simpl. repeat rewrite <- app_assoc. rewrite skipn_length_app. reflexivity.
Qed.

(** ** The outcome of the handlers *)

Section Outcomes.

Variable petab : Petab.

Lemma branch_leaves_outcome (key folder_path : string) (filenames : list string)
    (w : Window) :
  match fst (branch_leaves petab key folder_path filenames w) with
  | inl e => leaves_outcome petab key folder_path filenames = inl e
  | inr _ => leaves_outcome petab key folder_path filenames = inr tt
  end.
Proof.
  revert w. induction filenames as [|f filenames IH]; intros w; simpl.
  - reflexivity.
  - unfold bind. rewrite leaf_frame_run.
    destruct (leaf_result petab key (join folder_path f)) as [e|v]; simpl; [reflexivity|].
    specialize (IH (log (leaf_loads key (join folder_path f)) w)).
    destruct (branch_leaves petab key folder_path filenames _) as [[e|ls] w1]; simpl in *;
      exact IH.
Qed.

Lemma tree_branches_outcome (folder_path : string) (items : YamlDict) (w : Window) :
  match fst (tree_branches petab folder_path items w) with
  | inl e => tree_outcome petab folder_path items = inl e
  | inr _ => tree_outcome petab folder_path items = inr tt
  end.
Proof.
  revert w. induction items as [|[key filenames] items IH]; intros w; simpl.
  - reflexivity.
  - unfold bind.
    pose proof (branch_leaves_outcome key folder_path filenames w) as Hb.
    destruct (branch_leaves petab key folder_path filenames w) as [[e|ls] w1]; simpl in *;
      rewrite Hb; simpl; [reflexivity|].
    specialize (IH w1).
    destruct (tree_branches petab folder_path items w1) as [[e|bs] w2]; simpl in *;
      exact IH.
Qed.

(** [table_tree_view] ends with the first exception a loader raises on
    the files of the manifest, and returns when none does. *)
Lemma table_tree_view_outcome (folder_path : string) (w : Window) :
  fst (table_tree_view petab folder_path w) =
  rebuild_outcome petab folder_path (yaml_dict w).
Proof.
  unfold table_tree_view, rebuild_outcome, bind, gets, lift, modify.
  destruct (yaml_dict w) as [items|]; simpl; [|reflexivity].
  pose proof (tree_branches_outcome folder_path items w) as H.
  destruct (tree_branches petab folder_path items w) as [[e|bs] w1]; simpl in *;
    rewrite H; reflexivity.
Qed.

Lemma leaves_outcome_loadable (key folder_path : string) (filenames : list string) :
  leaves_outcome petab key folder_path filenames = inr tt <->
  forall f, In f filenames -> exists v, leaf_result petab key (join folder_path f) = inr v.
Proof.
  induction filenames as [|g filenames IH]; simpl.
  - split; [intros _ f [] | reflexivity].
  - destruct (leaf_result petab key (join folder_path g)) as [e|v] eqn:E; simpl.
    + split; [discriminate|]. intros H.
      destruct (H g (or_introl eq_refl)) as [v Hv]. congruence.
    + rewrite IH. split.
      * intros H f [<-|Hf]; [exists v; exact E | apply H; exact Hf].
      * intros H f Hf. apply H. right. exact Hf.
Qed.

Lemma tree_outcome_loadable (folder_path : string) (items : YamlDict) :
  tree_outcome petab folder_path items = inr tt <-> loadable petab folder_path items.
Proof.
  unfold loadable. induction items as [|[key filenames] items IH]; simpl.
  - split; [intros _ k fs f [] | reflexivity].
  - destruct (leaves_outcome petab key folder_path filenames) as [e|[]] eqn:E; simpl.
    + split; [discriminate|]. intros H.
      assert (L : leaves_outcome petab key folder_path filenames = inr tt).
      { apply leaves_outcome_loadable. intros f Hf.
        apply (H key filenames f); [left; reflexivity | exact Hf]. }
      congruence.
    + rewrite IH. split.
      * intros H k fs f [Hk|Hk] Hf.
        -- injection Hk as <- <-.
           apply (proj1 (leaves_outcome_loadable key folder_path filenames) E f Hf).
        -- apply (H k fs f Hk Hf).
      * intros H k fs f Hk Hf. apply (H k fs f); [right; exact Hk | exact Hf].
Qed.

Variable home : string.

(** The manifest dialog catches nothing: its outcome is the first
    exception among its steps. *)
Lemma show_yaml_dialog_outcome (dialog : string -> string) (w : Window)
    (file_name : string) :
  dialog (start_dir home w) = file_name ->
  file_name <> "" ->
  outcome (show_yaml_dialog petab home dialog) w = yaml_dialog_outcome petab file_name.
Proof.
  intros Hfile Hne.
  unfold outcome, show_yaml_dialog.
  unfold add_plots, add_warning, setText, load, bind, ret, lift, gets, modify; simpl.
  rewrite Hfile.
  destruct (String.eqb_spec file_name "") as [E|_]; [contradiction|].
  unfold yaml_dialog_outcome, manifest_problem, first_table, first_file, and_then, join.
  simpl.
  destruct (load_yaml petab file_name) as [e|doc]; simpl; [reflexivity|].
  destruct (getitem doc "problems") as [e|problems]; simpl; [reflexivity|].
  destruct (first problems) as [e|yd]; simpl; [reflexivity|].
  destruct (getitem yd MEASUREMENT_FILES) as [e|mfs]; simpl; [reflexivity|].
  destruct (first mfs) as [e|mf]; simpl; [reflexivity|].
  destruct (get_measurement_df petab _) as [e|m]; simpl; [reflexivity|].
  destruct (getitem yd CONDITION_FILES) as [e|cfs]; simpl; [reflexivity|].
  destruct (first cfs) as [e|cf]; simpl; [reflexivity|].
  destruct (get_condition_df petab _) as [e|c]; simpl; [reflexivity|].
  destruct (dict_mem VISUALIZATION_FILES yd).
  - destruct (getitem yd VISUALIZATION_FILES) as [e|vfs]; simpl; [reflexivity|].
    destruct (first vfs) as [e|vf]; simpl; [reflexivity|].
    destruct (get_visualization_df petab _) as [e|v]; simpl; [reflexivity|].
    rewrite table_tree_view_outcome. reflexivity.
  - rewrite table_tree_view_outcome. reflexivity.
Qed.

(** Nor does the simulation dialog. *)
Lemma show_simulation_dialog_outcome (dialog : string -> string) (w : Window)
    (file_name : string) :
  dialog (start_dir home w) = file_name ->
  file_name <> "" ->
  outcome (show_simulation_dialog petab home dialog) w =
  simulation_dialog_outcome petab file_name w.
Proof.
  intros Hfile Hne.
  unfold outcome, show_simulation_dialog.
  unfold add_plots, add_warning, setText, insertWidget, load, bind, ret, lift, gets, modify;
    simpl.
  rewrite Hfile.
  destruct (String.eqb_spec file_name "") as [E|_]; [contradiction|].
  unfold simulation_dialog_outcome, and_then.
  destruct (exp_data w) as [exp|]; simpl; [|reflexivity].
  destruct (get_simulation_df petab file_name) as [e|sim]; simpl; [reflexivity|].
  destruct (check_ex_exp_columns petab sim (condition_df w)) as [e|chk]; simpl;
    [reflexivity|].
  match goal with
  | |- context [table_tree_view petab ?d ?s] =>
      pose proof (table_tree_view_outcome d s) as H;
      destruct (table_tree_view petab d s) as [[e|[]] w3]
  end; simpl in *; rewrite <- H; reflexivity.
Qed.

(** The manifest dialog returns exactly on the valid manifests. *)
Lemma yaml_dialog_outcome_valid (file_name : string) :
  yaml_dialog_outcome petab file_name = inr tt <->
  exists yd m c, valid_manifest petab file_name yd m c.
Proof.
  unfold yaml_dialog_outcome. split.
  - destruct (manifest_problem petab file_name) as [e|yd] eqn:Hp; [discriminate|].
    cbv zeta. unfold and_then.
    destruct (first_table (get_measurement_df petab) _ yd MEASUREMENT_FILES)
      as [e|m] eqn:Hm; [discriminate|].
    destruct (first_table (get_condition_df petab) _ yd CONDITION_FILES)
      as [e|c] eqn:Hc; [discriminate|].
    intros H. exists yd, m, c. constructor; try assumption.
    + intros Hmem. rewrite Hmem in H.
      destruct (first_table (get_visualization_df petab) _ yd VISUALIZATION_FILES)
        as [e|v]; [discriminate|]. exists v. reflexivity.
    + apply tree_outcome_loadable.
      destruct (dict_mem VISUALIZATION_FILES yd); [|exact H].
      destruct (first_table (get_visualization_df petab) _ yd VISUALIZATION_FILES);
        [discriminate | exact H].
  - intros (yd & m & c & [Hp Hm Hc Hv Ht]).
    rewrite Hp. cbv zeta. rewrite Hm, Hc. simpl.
    apply tree_outcome_loadable in Ht.
    destruct (dict_mem VISUALIZATION_FILES yd).
    + destruct (Hv eq_refl) as [v Hv']. rewrite Hv'. exact Ht.
    + exact Ht.
Qed.

End Outcomes.

(** What the window holds when an exception leaves a dialog at one of
    four places: the four tables are as before when the manifest does not
    parse and when the simulation file does not load or is refused; the
    manifest and the measurement table are already replaced when the
    condition file does not load. *)
Lemma file_action_failure_points (petab : Petab) (home : string)
    (dialog : string -> string) (w : Window) (file_name : string) :
  dialog (start_dir home w) = file_name ->
  let open := show_yaml_dialog petab home dialog in
  let attach := show_simulation_dialog petab home dialog in
  (file_name = "" ->
   open w = (inr tt, w) /\ attach w = (inr tt, w)) /\
  (file_name <> "" ->
   forall e, load_yaml petab file_name = inl e ->
     outcome open w = inl e /\
     active_selection (exec open w) = active_selection w /\
     yaml_dict (exec open w) = yaml_dict w /\
     warn_msg (exec open w) = "") /\
  (file_name <> "" ->
   forall yd m e,
     manifest_problem petab file_name = inr yd ->
     first_table (get_measurement_df petab) (dirname file_name) yd MEASUREMENT_FILES = inr m ->
     first_table (get_condition_df petab) (dirname file_name) yd CONDITION_FILES = inl e ->
     outcome open w = inl e /\
     yaml_dict (exec open w) = Some yd /\
     exp_data (exec open w) = Some m /\
     condition_df (exec open w) = condition_df w /\
     refresh_count (exec open w) = refresh_count w) /\
  (file_name <> "" ->
   forall exp e,
     exp_data w = Some exp ->
     get_simulation_df petab file_name = inl e ->
     outcome attach w = inl e /\
     active_selection (exec attach w) = active_selection w /\
     warn_msg (exec attach w) = "") /\
  (file_name <> "" ->
   forall exp sim e,
     exp_data w = Some exp ->
     get_simulation_df petab file_name = inr sim ->
     check_ex_exp_columns petab sim (condition_df w) = inl e ->
     outcome attach w = inl e /\
     active_selection (exec attach w) = active_selection w /\
     warn_msg (exec attach w) = "").
Proof.
  intros Hfile. cbv zeta. unfold outcome, exec, refresh_count.
  unfold show_yaml_dialog, show_simulation_dialog. run. rewrite Hfile.
  split; [|split; [|split; [|split]]].
  - intros ->. simpl. split; reflexivity.
  - intros Hne e He.
    destruct (String.eqb_spec file_name "") as [E0|_]; [contradiction|].
    rewrite He. simpl. repeat split; reflexivity.
  - intros Hne yd m e Hp Hm Hc.
    destruct (String.eqb_spec file_name "") as [E0|_]; [contradiction|].
    destruct (manifest_problem_inv _ _ _ Hp) as (doc & problems & Hd & Hps & Hyd).
    destruct (first_table_inv _ _ _ _ _ Hm) as (mfs & mf & Hm1 & Hm2 & Hm3).
    rewrite Hd; simpl. rewrite Hps; simpl. rewrite Hyd; simpl.
    rewrite Hm1; simpl. rewrite Hm2; simpl. rewrite Hm3; simpl.
    unfold first_table, first_file in Hc.
    destruct (getitem yd CONDITION_FILES) as [e1|cfs]; simpl.
    { injection Hc as ->. repeat rewrite refreshes_app; simpl; repeat rewrite app_nil_r.
      repeat split; reflexivity. }
    destruct (first cfs) as [e2|cf]; simpl.
    { injection Hc as ->. repeat rewrite refreshes_app; simpl; repeat rewrite app_nil_r.
      repeat split; reflexivity. }
    unfold join in Hc; simpl in Hc. rewrite Hc; simpl.
    repeat rewrite refreshes_app; simpl; repeat rewrite app_nil_r.
    repeat split; reflexivity.
  - intros Hne exp e Hexp He.
    destruct (String.eqb_spec file_name "") as [E0|_]; [contradiction|].
    rewrite Hexp; simpl. rewrite He; simpl. repeat split; reflexivity.
  - intros Hne exp sim e Hexp Hs He.
    destruct (String.eqb_spec file_name "") as [E0|_]; [contradiction|].
    rewrite Hexp; simpl. rewrite Hs; simpl. rewrite He; simpl.
    repeat split; reflexivity.
Qed.

(** ** The click handlers *)

Lemma exchange_dataframe_on_click_trace (index : QModelIndex) (tree : TreeModel)
    (w : Window) :
  exists sel,
    trace (exec (exchange_dataframe_on_click index tree) w) = trace w ++ [RefreshPlots sel].
Proof.
  unfold exec, exchange_dataframe_on_click. run.
  destruct (display_data tree (parent_of index)) as [p|]; simpl;
    [ destruct (String.eqb p MEASUREMENT_FILES);
      destruct (String.eqb p VISUALIZATION_FILES);
      destruct (String.eqb p CONDITION_FILES) | ];
    simpl; eexists; reflexivity.
Qed.

Lemma display_table_on_doubleclick_trace (index : QModelIndex) (tree : TreeModel)
    (w : Window) :
  trace (exec (display_table_on_doubleclick index tree) w) = trace w.
Proof.
  unfold exec, display_table_on_doubleclick, pop_up_table_view. run.
  destruct (user_data tree index); reflexivity.
Qed.

(** ** The example installation *)

(** Both example manifests are valid. *)
Lemma fixture_manifest_valid :
  valid_manifest Fixture.petab "/data/problem.yaml" Fixture.problem Fixture.meas1 Fixture.cond.
Proof.
  constructor; try reflexivity.
  - intros _. exists Fixture.vis. reflexivity.
  - apply loadableb_sound. reflexivity.
Qed.

Lemma fixture_manifest_novis_valid :
  valid_manifest Fixture.petab "/data/novis.yaml" Fixture.problem_novis
                 Fixture.meas1 Fixture.cond.
Proof.
  constructor; try reflexivity.
  - intros H. discriminate H.
  - apply loadableb_sound. reflexivity.
Qed.

(** * The claims *)

(** C1, as the code has it. When a simulation file is chosen while a
    measurement table is active and the file loads and passes the
    library's column check, the table installed is the table that check
    returned, without its replicate column when the measurement table has
    none and unchanged otherwise.  The columns of the installed table are
    those of the checked table (the replicate column apart): no column is
    added because the measurement table has it.  The measurement table
    stays, and the plots are refreshed on the installed table. *)
Theorem attach_simulation_columns (petab : Petab) (home : string)
    (dialog : string -> string) (w : Window) (file_name : string)
    (exp sim chk : DataFrame) :
  dialog (start_dir home w) = file_name ->
  file_name <> "" ->
  exp_data w = Some exp ->
  get_simulation_df petab file_name = inr sim ->
  check_ex_exp_columns petab sim (condition_df w) = inr chk ->
  let w' := exec (show_simulation_dialog petab home dialog) w in
  exists installed,
    simulation_df w' = Some installed /\
    installed = (if negb (has_column REPLICATE_ID exp) && has_column REPLICATE_ID chk
                 then drop REPLICATE_ID chk else chk) /\
    (has_column REPLICATE_ID exp = false -> has_column REPLICATE_ID installed = false) /\
    (has_column REPLICATE_ID exp = true -> installed = chk) /\
    (forall name, name <> REPLICATE_ID ->
                  has_column name installed = has_column name chk) /\
    exp_data w' = Some exp /\
    refreshes (trace w') =
    refreshes (trace w) ++
    [ mkActiveSelection (Some exp) (condition_df w) (visualization_df w) (Some installed) ].
Proof.
  intros Hfile Hne Hexp Hsim Hchk. cbv zeta.
  destruct (show_simulation_dialog_attached petab home dialog w file_name exp sim chk
              Hfile Hne Hexp Hsim Hchk) as (Hs & Hr & _).
  cbv zeta in Hs, Hr. injection Hs as H1 _ _ H4.
  eexists. split; [exact H4|]. split; [reflexivity|].
  split; [|split; [|split; [|split; [exact H1 | exact Hr]]]].
  - intros Hx. rewrite Hx. simpl.
    destruct (has_column REPLICATE_ID chk) eqn:Hc.
    + rewrite has_column_drop, String.eqb_refl. reflexivity.
    + exact Hc.
  - intros Hx. rewrite Hx. reflexivity.
  - intros name Hn.
    destruct (negb (has_column REPLICATE_ID exp) && has_column REPLICATE_ID chk);
      [|reflexivity].
    rewrite has_column_drop.
    destruct (String.eqb_spec REPLICATE_ID name) as [E|_]; [|reflexivity].
    symmetry in E; contradiction.
Qed.

Lemma attach_simulation_columns_witness :
  Fixture.pick "/data/sim.tsv" (start_dir Fixture.home Fixture.opened) = "/data/sim.tsv" /\
  exp_data Fixture.opened = Some Fixture.meas1 /\
  get_simulation_df Fixture.petab "/data/sim.tsv" = inr Fixture.sim /\
  exists chk installed,
    check_ex_exp_columns Fixture.petab Fixture.sim (condition_df Fixture.opened) = inr chk /\
    simulation_df (exec (show_simulation_dialog Fixture.petab Fixture.home
                           (Fixture.pick "/data/sim.tsv")) Fixture.opened)
    = Some installed /\
    has_column REPLICATE_ID chk = true /\
    has_column REPLICATE_ID installed = false.
Proof.
  split; [reflexivity|]. split; [reflexivity|]. split; [reflexivity|].
  exists (fold_left Fixture.add_default Fixture.defaults Fixture.sim).
  destruct (attach_simulation_columns Fixture.petab Fixture.home
              (Fixture.pick "/data/sim.tsv") Fixture.opened "/data/sim.tsv"
              Fixture.meas1 Fixture.sim
              (fold_left Fixture.add_default Fixture.defaults Fixture.sim))
    as (installed & Hi & _ & Hr & _);
    [reflexivity | discriminate | reflexivity | reflexivity | reflexivity |].
  exists installed.
  split; [reflexivity|]. split; [exact Hi|]. split; [reflexivity|].
  apply Hr. reflexivity.
Defined.

(** C1 as stated fails: with the measurement table of [meas1.tsv] active
    (columns observableId, simulationConditionId, measurement, time) and a
    simulation file with the columns observableId, simulationConditionId,
    simulation, time and replicateId, the table installed has the columns
    of the checked simulation table without replicateId; the measurement
    table's column [measurement] is not among them. *)
Lemma attach_does_not_add_measurement_columns :
  let w' := exec (show_simulation_dialog Fixture.petab Fixture.home
                    (Fixture.pick "/data/sim.tsv")) Fixture.opened in
  option_map columns (exp_data Fixture.opened) =
  Some ["observableId"; "simulationConditionId"; "measurement"; "time"] /\
  columns Fixture.sim =
  ["observableId"; "simulationConditionId"; "simulation"; "time"; "replicateId"] /\
  option_map columns (simulation_df w') =
  Some ["observableId"; "simulationConditionId"; "simulation"; "time";
        "preequilibrationConditionId"; "observableParameters"; "noiseParameters";
        "observableTransformation"; "noiseDistribution"] /\
  ~ (forall name,
       option_map (has_column name) (exp_data Fixture.opened) = Some true ->
       option_map (has_column name) (simulation_df w') = Some true).
Proof.
  cbv zeta. split; [reflexivity|]. split; [reflexivity|]. split; [vm_compute; reflexivity|].
  intros H. specialize (H "measurement" eq_refl). vm_compute in H. discriminate H.
Qed.

(** C2. When a simulation file is chosen while no measurement table is
    active, the handler returns without raising, the four tables, the
    manifest, the tree and the trace (so no read and no refresh) are as
    before, and the warning area gains the message that asks for a YAML
    file first.  A valid manifest opened afterwards is opened as usual:
    the dialog returns and the first measurement and condition tables are
    installed. *)
Theorem attach_without_measurement (petab : Petab) (home : string)
    (dialog : string -> string) (w : Window) :
  dialog (start_dir home w) <> "" ->
  exp_data w = None ->
  let attach := show_simulation_dialog petab home dialog in
  let w' := exec attach w in
  outcome attach w = inr tt /\
  active_selection w' = active_selection w /\
  yaml_dict w' = yaml_dict w /\
  tree_view w' = tree_view w /\
  trace w' = trace w /\
  warn_msg w' = (warn_msg w ++ "Please open a YAML file first.")%string /\
  forall (dialog2 : string -> string) (file_name : string) (yd : YamlDict)
         (m c : DataFrame),
    dialog2 (start_dir home w') = file_name ->
    file_name <> "" ->
    valid_manifest petab file_name yd m c ->
    let open := show_yaml_dialog petab home dialog2 in
    outcome open w' = inr tt /\
    exp_data (exec open w') = Some m /\
    condition_df (exec open w') = Some c /\
    simulation_df (exec open w') = None /\
    refresh_count (exec open w') = refresh_count w' + 1.
Proof.
  intros Hne Hexp. cbv zeta.
  assert (E : show_simulation_dialog petab home dialog w =
              (inr tt, set_last_dir (Some (dirname (dialog (start_dir home w))))
                         (set_warn_msg (warn_msg w ++ "Please open a YAML file first.") w))).
  { unfold show_simulation_dialog. run.
    destruct (String.eqb_spec (dialog (start_dir home w)) "") as [E0|_]; [contradiction|].
    rewrite Hexp. reflexivity. }
  replace (exec (show_simulation_dialog petab home dialog) w)
    with (set_last_dir (Some (dirname (dialog (start_dir home w))))
            (set_warn_msg (warn_msg w ++ "Please open a YAML file first.") w))
    by (unfold exec; rewrite E; reflexivity).
  unfold outcome at 1. rewrite E. simpl fst.
  repeat (split; [reflexivity|]).
  intros dialog2 file_name yd m c Hd Hf Hvalid. cbv zeta.
  destruct (show_yaml_dialog_valid petab home dialog2 _ file_name yd m c Hd Hf Hvalid)
    as (Ho & Hm & Hc & Hs & _ & _ & Hn & Hv).
  repeat (split; [assumption|]).
  unfold refresh_count.
  destruct (dict_mem VISUALIZATION_FILES yd).
  - destruct (Hv eq_refl) as (v & _ & _ & _ & Hr). rewrite Hr, length_app. reflexivity.
  - destruct (Hn eq_refl) as (_ & _ & Hr). rewrite Hr, length_app. reflexivity.
Qed.

Lemma attach_without_measurement_witness :
  let attach := show_simulation_dialog Fixture.petab Fixture.home
                  (Fixture.pick "/data/sim.tsv") in
  let w' := exec attach Fixture.empty_window in
  let open := show_yaml_dialog Fixture.petab Fixture.home
                (Fixture.pick "/data/problem.yaml") in
  exp_data Fixture.empty_window = None /\
  outcome attach Fixture.empty_window = inr tt /\
  active_selection w' = active_selection Fixture.empty_window /\
  warn_msg w' = "Please open a YAML file first." /\
  outcome open w' = inr tt /\
  exp_data (exec open w') = Some Fixture.meas1.
Proof.
  cbv zeta. split; [reflexivity|].
  destruct (attach_without_measurement Fixture.petab Fixture.home
              (Fixture.pick "/data/sim.tsv") Fixture.empty_window)
    as (Ho & Hs & _ & _ & _ & Hw & Hnext); [discriminate | reflexivity |].
  split; [exact Ho|]. split; [exact Hs|]. split; [exact Hw|].
  destruct (Hnext (Fixture.pick "/data/problem.yaml") "/data/problem.yaml"
                  Fixture.problem Fixture.meas1 Fixture.cond)
    as (Ho2 & Hm2 & _); [reflexivity | discriminate | exact fixture_manifest_valid |].
  split; [exact Ho2 | exact Hm2].
Defined.

(** C3, as the code has it. A cancelled dialog returns and leaves the
    window as it was, and a simulation file chosen while no measurement
    table is active only adds a warning.  Otherwise the handlers catch
    nothing: the outcome of each is the first exception among its steps,
    taken in order (manifest and first problem, first measurement file,
    first condition file, first visualization file if the category is
    there, every file of the tree; simulation file, column check, every
    file of the tree), and the manifest dialog returns exactly on the
    valid manifests.  The four tables are as before when the manifest
    does not parse and when the simulation file does not load or does not
    pass the check (the warning text was already cleared); when the
    condition file does not load, the manifest and the measurement table
    were already replaced and stay replaced. *)
Theorem file_action_failures (petab : Petab) (home : string)
    (dialog : string -> string) (w : Window) (file_name : string) :
  dialog (start_dir home w) = file_name ->
  let open := show_yaml_dialog petab home dialog in
  let attach := show_simulation_dialog petab home dialog in
  (file_name = "" ->
   open w = (inr tt, w) /\ attach w = (inr tt, w)) /\
  (file_name <> "" ->
   outcome open w = yaml_dialog_outcome petab file_name /\
   outcome attach w = simulation_dialog_outcome petab file_name w /\
   (outcome open w = inr tt <-> exists yd m c, valid_manifest petab file_name yd m c)) /\
  (file_name <> "" ->
   exp_data w = None ->
   outcome attach w = inr tt /\
   active_selection (exec attach w) = active_selection w /\
   warn_msg (exec attach w) = (warn_msg w ++ "Please open a YAML file first.")%string /\
   trace (exec attach w) = trace w) /\
  (file_name <> "" ->
   forall e, load_yaml petab file_name = inl e ->
     outcome open w = inl e /\
     active_selection (exec open w) = active_selection w /\
     yaml_dict (exec open w) = yaml_dict w /\
     warn_msg (exec open w) = "") /\
  (file_name <> "" ->
   forall yd m e,
     manifest_problem petab file_name = inr yd ->
     first_table (get_measurement_df petab) (dirname file_name) yd MEASUREMENT_FILES = inr m ->
     first_table (get_condition_df petab) (dirname file_name) yd CONDITION_FILES = inl e ->
     outcome open w = inl e /\
     yaml_dict (exec open w) = Some yd /\
     exp_data (exec open w) = Some m /\
     condition_df (exec open w) = condition_df w /\
     refresh_count (exec open w) = refresh_count w) /\
  (file_name <> "" ->
   forall exp e,
     exp_data w = Some exp ->
     get_simulation_df petab file_name = inl e ->
     outcome attach w = inl e /\
     active_selection (exec attach w) = active_selection w /\
     warn_msg (exec attach w) = "") /\
  (file_name <> "" ->
   forall exp sim e,
     exp_data w = Some exp ->
     get_simulation_df petab file_name = inr sim ->
     check_ex_exp_columns petab sim (condition_df w) = inl e ->
     outcome attach w = inl e /\
     active_selection (exec attach w) = active_selection w /\
     warn_msg (exec attach w) = "").
Proof.
  intros Hfile. cbv zeta.
  destruct (file_action_failure_points petab home dialog w file_name Hfile)
    as (H0 & H1 & H2 & H3 & H4).
  split; [exact H0|].
  split; [|split; [|split; [exact H1|]; split; [exact H2|]; split; [exact H3 | exact H4]]].
  - intros Hne.
    rewrite (show_yaml_dialog_outcome petab home dialog w file_name Hfile Hne).
    split; [reflexivity|].
    split; [apply (show_simulation_dialog_outcome petab home dialog w file_name Hfile Hne)|].
    apply yaml_dialog_outcome_valid.
  - intros Hne Hexp.
    unfold outcome, exec, show_simulation_dialog.
    unfold add_warning, bind, ret, gets, modify; simpl.
    rewrite Hfile.
    destruct (String.eqb_spec file_name "") as [E|_]; [contradiction|].
    rewrite Hexp. repeat split; reflexivity.
Qed.

Lemma file_action_failures_witness :
  (let open := show_yaml_dialog Fixture.petab Fixture.home
                 (Fixture.pick "/data/broken.yaml") in
   load_yaml Fixture.petab "/data/broken.yaml"
   = inl (PetabError "cannot read /data/broken.yaml") /\
   outcome open Fixture.opened = inl (PetabError "cannot read /data/broken.yaml") /\
   active_selection (exec open Fixture.opened) = active_selection Fixture.opened) /\
  (let open := show_yaml_dialog Fixture.petab Fixture.home
                 (Fixture.pick "/data/nocond.yaml") in
   outcome open Fixture.opened = inl (PetabError "cannot read /data/missing.tsv") /\
   exp_data (exec open Fixture.opened) = Some Fixture.meas2) /\
  (let attach := show_simulation_dialog Fixture.petab Fixture.home
                   (Fixture.pick "/data/nosuch.tsv") in
   outcome attach Fixture.opened = inl (PetabError "cannot read /data/nosuch.tsv") /\
   active_selection (exec attach Fixture.opened) = active_selection Fixture.opened) /\
  (let open := show_yaml_dialog Fixture.petab Fixture.home (Fixture.pick "") in
   open Fixture.opened = (inr tt, Fixture.opened)) /\
  (let open := show_yaml_dialog Cases.petab Fixture.home
                 (Fixture.pick "/data/badmeas.yaml") in
   outcome open Fixture.opened = inl (PetabError "cannot read /data/missing_meas.tsv")) /\
  (let attach := show_simulation_dialog Fixture.petab Fixture.home
                   (Fixture.pick "/results/sim.tsv") in
   outcome attach Fixture.opened = inl (PetabError "cannot read /results/meas1.tsv")) /\
  (let attach := show_simulation_dialog Fixture.petab Fixture.home
                   (Fixture.pick "/data/sim.tsv") in
   outcome attach Fixture.empty_window = inr tt /\
   warn_msg (exec attach Fixture.empty_window) = "Please open a YAML file first.").
Proof.
  cbv zeta. split; [|split; [|split; [|split; [|split; [|split]]]]].
  - split; [reflexivity|].
    destruct (file_action_failures Fixture.petab Fixture.home
                (Fixture.pick "/data/broken.yaml") Fixture.opened "/data/broken.yaml")
      as (_ & _ & _ & H & _); [reflexivity|].
    destruct (H ltac:(discriminate) (PetabError "cannot read /data/broken.yaml") eq_refl)
      as (Ho & Hs & _).
    split; [exact Ho | exact Hs].
  - destruct (file_action_failures Fixture.petab Fixture.home
                (Fixture.pick "/data/nocond.yaml") Fixture.opened "/data/nocond.yaml")
      as (_ & _ & _ & _ & H & _); [reflexivity|].
    destruct (H ltac:(discriminate) Fixture.problem_nocond Fixture.meas2
                (PetabError "cannot read /data/missing.tsv") eq_refl eq_refl eq_refl)
      as (Ho & _ & Hm & _).
    split; [exact Ho | exact Hm].
  - destruct (file_action_failures Fixture.petab Fixture.home
                (Fixture.pick "/data/nosuch.tsv") Fixture.opened "/data/nosuch.tsv")
      as (_ & _ & _ & _ & _ & H & _); [reflexivity|].
    destruct (H ltac:(discriminate) Fixture.meas1
                (PetabError "cannot read /data/nosuch.tsv") eq_refl eq_refl)
      as (Ho & Hs & _).
    split; [exact Ho | exact Hs].
  - destruct (file_action_failures Fixture.petab Fixture.home
                (Fixture.pick "") Fixture.opened "")
      as (H & _); [reflexivity|].
    destruct (H eq_refl) as (Ho & _). exact Ho.
  - destruct (file_action_failures Cases.petab Fixture.home
                (Fixture.pick "/data/badmeas.yaml") Fixture.opened "/data/badmeas.yaml")
      as (_ & H & _); [reflexivity|].
    destruct (H ltac:(discriminate)) as (Ho & _). rewrite Ho. reflexivity.
  - destruct (file_action_failures Fixture.petab Fixture.home
                (Fixture.pick "/results/sim.tsv") Fixture.opened "/results/sim.tsv")
      as (_ & H & _); [reflexivity|].
    destruct (H ltac:(discriminate)) as (_ & Ho & _). rewrite Ho. reflexivity.
  - destruct (file_action_failures Fixture.petab Fixture.home
                (Fixture.pick "/data/sim.tsv") Fixture.empty_window "/data/sim.tsv")
      as (_ & _ & H & _); [reflexivity|].
    destruct (H ltac:(discriminate) eq_refl) as (Ho & _ & Hw & _).
    split; [exact Ho | exact Hw].
Defined.

(** C3 as stated fails: a manifest that cannot be read, a simulation file
    that cannot be read and a manifest whose condition file is missing
    each end the handler with the loader's exception, and in the last case
    the measurement table was already replaced when the exception left. *)
Lemma file_action_exception_escapes :
  outcome (show_yaml_dialog Fixture.petab Fixture.home (Fixture.pick "/data/broken.yaml"))
          Fixture.opened
  = inl (PetabError "cannot read /data/broken.yaml") /\
  outcome (show_simulation_dialog Fixture.petab Fixture.home (Fixture.pick "/data/nosuch.tsv"))
          Fixture.opened
  = inl (PetabError "cannot read /data/nosuch.tsv") /\
  (let open := show_yaml_dialog Fixture.petab Fixture.home
                 (Fixture.pick "/data/nocond.yaml") in
   outcome open Fixture.opened = inl (PetabError "cannot read /data/missing.tsv") /\
   exp_data Fixture.opened = Some Fixture.meas1 /\
   exp_data (exec open Fixture.opened) = Some Fixture.meas2 /\
   active_selection (exec open Fixture.opened) <> active_selection Fixture.opened).
Proof.
  cbv zeta. repeat split; try (vm_compute; reflexivity).
  intros H. vm_compute in H. discriminate H.
Qed.

(** C4, as the code has it. Building the tree of a manifest whose files
    all load reads every file the manifest names under the measurement,
    visualization, condition and observable categories, in the order of
    the manifest, once each, at construction time, and stores each table
    in its leaf.  The two click handlers read no file: a click adds one
    refresh to the trace and a double click adds nothing. *)
Theorem tree_view_loads_every_file (petab : Petab) (folder_path : string)
    (items : YamlDict) (w : Window) :
  yaml_dict w = Some items ->
  loadable petab folder_path items ->
  let build := table_tree_view petab folder_path in
  outcome build w = inr tt /\
  new_events build w = expected_loads folder_path items /\
  loads (new_events build w) = loads (expected_loads folder_path items) /\
  tree_view (exec build w) =
  Some (expected_tree petab folder_path items (simulation_df w)) /\
  (forall index tree w0,
     loads (new_events (exchange_dataframe_on_click index tree) w0) = []) /\
  (forall index tree w0,
     new_events (display_table_on_doubleclick index tree) w0 = []).
Proof.
  intros Hy Hl. cbv zeta. unfold outcome, new_events, exec.
  rewrite (table_tree_view_loadable petab folder_path items w Hy Hl). simpl.
  rewrite skipn_length_app.
  repeat (split; [reflexivity|]). split.
  - intros index tree w0.
    destruct (exchange_dataframe_on_click_trace index tree w0) as [sel Ht].
    unfold exec in Ht. rewrite Ht, skipn_length_app. reflexivity.
  - intros index tree w0.
    pose proof (display_table_on_doubleclick_trace index tree w0) as Ht.
    unfold exec in Ht. rewrite Ht. apply skipn_all_length.
Qed.

Lemma tree_view_loads_every_file_witness :
  let build := table_tree_view Fixture.petab "/data" in
  yaml_dict Fixture.parsed = Some Fixture.problem /\
  outcome build Fixture.parsed = inr tt /\
  loads (new_events build Fixture.parsed) =
  [ (MeasurementFile, "/data/meas1.tsv"); (MeasurementFile, "/data/meas2.tsv");
    (ConditionFile, "/data/cond.tsv"); (ObservableFile, "/data/obs.tsv");
    (VisualizationFile, "/data/vis.tsv") ] /\
  loads (new_events (exchange_dataframe_on_click (LeafIndex 1 1) Fixture.tree)
                    Fixture.opened) = [].
Proof.
  cbv zeta. split; [reflexivity|].
  destruct (tree_view_loads_every_file Fixture.petab "/data" Fixture.problem Fixture.parsed)
    as (Ho & _ & Hl & _ & Hc & _);
    [reflexivity | apply loadableb_sound; reflexivity |].
  split; [exact Ho|]. split; [rewrite Hl; reflexivity|]. apply Hc.
Defined.

(** C4 as stated fails: building the tree of the example manifest reads
    all five table files it names, before any item is clicked. *)
Lemma tree_view_reads_files_at_construction :
  let build := table_tree_view Fixture.petab "/data" in
  trace Fixture.parsed = [] /\
  loads (trace (exec build Fixture.parsed)) =
  [ (MeasurementFile, "/data/meas1.tsv"); (MeasurementFile, "/data/meas2.tsv");
    (ConditionFile, "/data/cond.tsv"); (ObservableFile, "/data/obs.tsv");
    (VisualizationFile, "/data/vis.tsv") ] /\
  loads (trace (exec build Fixture.parsed)) <> [].
Proof.
  cbv zeta. split; [reflexivity|]. split; [vm_compute; reflexivity|].
  vm_compute. discriminate.
Qed.

(** C5, the code at the failing input. The manifest [/data/problem.yaml]
    is open and the simulation file [/results/sim.tsv] is attached: the
    tree is rebuilt from the directory of the simulation file, so the
    manifest's first measurement file is looked for at
    [/results/meas1.tsv] and not at [/data/meas1.tsv], where the manifest
    has it; the read fails and the exception leaves the handler. *)
Theorem attach_resolves_manifest_files_in_simulation_directory :
  let attach := show_simulation_dialog Fixture.petab Fixture.home
                  (Fixture.pick "/results/sim.tsv") in
  yaml_dict Fixture.opened = Some Fixture.problem /\
  dirname "/data/problem.yaml" = "/data" /\
  dirname "/results/sim.tsv" = "/results" /\
  loads (new_events attach Fixture.opened) =
  [ (SimulationFile, "/results/sim.tsv"); (MeasurementFile, "/results/meas1.tsv") ] /\
  outcome attach Fixture.opened = inl (PetabError "cannot read /results/meas1.tsv").
Proof.
  cbv zeta. repeat split; vm_compute; reflexivity.
Qed.

(** C6. Opening a valid manifest whose first problem has no visualization
    category: the dialog returns without raising, the visualization table
    is [None], the first measurement and condition tables are installed,
    the warning area holds the message that no visualization file was
    given and the default is plotted, and [add_plots] is called once, on
    those tables with no visualization table. *)
Theorem open_manifest_without_visualization (petab : Petab) (home : string)
    (dialog : string -> string) (w : Window) (file_name : string) (yd : YamlDict)
    (m c : DataFrame) :
  dialog (start_dir home w) = file_name ->
  file_name <> "" ->
  valid_manifest petab file_name yd m c ->
  dict_mem VISUALIZATION_FILES yd = false ->
  let open := show_yaml_dialog petab home dialog in
  outcome open w = inr tt /\
  visualization_df (exec open w) = None /\
  exp_data (exec open w) = Some m /\
  condition_df (exec open w) = Some c /\
  simulation_df (exec open w) = None /\
  warn_msg (exec open w) = "The YAML file contains no visualization file (default plotted)" /\
  refreshes (trace (exec open w)) =
  refreshes (trace w) ++ [ mkActiveSelection (Some m) (Some c) None None ] /\
  refresh_count (exec open w) = refresh_count w + 1.
Proof.
  intros Hd Hf Hvalid Hmem. cbv zeta.
  destruct (show_yaml_dialog_valid petab home dialog w file_name yd m c Hd Hf Hvalid)
    as (Ho & Hm & Hc & Hs & _ & _ & Hn & _).
  destruct (Hn Hmem) as (Hv & Hw & Hr).
  repeat (split; [assumption|]).
  unfold refresh_count. rewrite Hr, length_app. reflexivity.
Qed.

Lemma open_manifest_without_visualization_witness :
  let open := show_yaml_dialog Fixture.petab Fixture.home (Fixture.pick "/data/novis.yaml") in
  dict_mem VISUALIZATION_FILES Fixture.problem_novis = false /\
  visualization_df Fixture.opened = Some Fixture.vis /\
  outcome open Fixture.opened = inr tt /\
  visualization_df (exec open Fixture.opened) = None /\
  warn_msg (exec open Fixture.opened) =
  "The YAML file contains no visualization file (default plotted)" /\
  refresh_count (exec open Fixture.opened) = refresh_count Fixture.opened + 1.
Proof.
  cbv zeta. split; [reflexivity|]. split; [reflexivity|].
  destruct (open_manifest_without_visualization Fixture.petab Fixture.home
              (Fixture.pick "/data/novis.yaml") Fixture.opened "/data/novis.yaml"
              Fixture.problem_novis Fixture.meas1 Fixture.cond)
    as (Ho & Hv & _ & _ & _ & Hw & _ & Hr);
    [reflexivity | discriminate | exact fixture_manifest_novis_valid | reflexivity |].
  split; [exact Ho|]. split; [exact Hv|]. split; [exact Hw | exact Hr].
Defined.

(** C7. Clicking the same tree item twice: both calls return, the second
    leaves the four tables as the first set them, and each call refreshes
    the plots once, so two refreshes are added to the trace, both on the
    tables the first call installed. *)
Theorem activate_twice (index : QModelIndex) (tree : TreeModel) (w : Window) :
  let click := exchange_dataframe_on_click index tree in
  let w1 := exec click w in
  let w2 := exec click w1 in
  outcome click w = inr tt /\
  outcome click w1 = inr tt /\
  active_selection w2 = active_selection w1 /\
  trace w1 = trace w ++ [RefreshPlots (active_selection w1)] /\
  trace w2 = trace w1 ++ [RefreshPlots (active_selection w1)] /\
  refresh_count w1 = refresh_count w + 1 /\
  refresh_count w2 = refresh_count w + 2.
Proof.
  cbv zeta. unfold refresh_count, outcome, exec, exchange_dataframe_on_click. run.
  destruct (display_data tree (parent_of index)) as [p|]; simpl;
    [ destruct (String.eqb p MEASUREMENT_FILES);
      destruct (String.eqb p VISUALIZATION_FILES);
      destruct (String.eqb p CONDITION_FILES) | ];
    simpl; repeat rewrite refreshes_app; repeat rewrite length_app; simpl;
    repeat split; try reflexivity; lia.
Qed.

(** C8. A double click on any tree item returns, leaves the four tables
    as they were and adds nothing to the trace (no refresh, no read): the
    only attribute of the window it may change is [table_window], which
    receives the view of the item's table when the item holds one. *)
Theorem inspect_leaves_selection (index : QModelIndex) (tree : TreeModel) (w : Window) :
  let inspect := display_table_on_doubleclick index tree in
  outcome inspect w = inr tt /\
  active_selection (exec inspect w) = active_selection w /\
  trace (exec inspect w) = trace w /\
  refresh_count (exec inspect w) = refresh_count w /\
  exec inspect w = set_table_window (table_window (exec inspect w)) w /\
  table_window (exec inspect w) =
  match user_data tree index with
  | Some d => Some (show (setGeometry (100, 100, 800, 400) (newTableWidget d)))
  | None => table_window w
  end.
Proof.
  cbv zeta. unfold refresh_count, outcome, exec, display_table_on_doubleclick, pop_up_table_view.
  run. destruct (user_data tree index) as [d|]; simpl; repeat split; try reflexivity.
  destruct w; reflexivity.
Qed.




(** C10. A click on an item whose parent is not named after the
    measurement, visualization or condition category (a category node,
    an observable file, the simulation file) returns, leaves the four
    tables as they were, and still calls [add_plots] once, on those
    unchanged tables. *)
Theorem click_outside_table_categories (index : QModelIndex) (tree : TreeModel)
    (w : Window) :
  display_data tree (parent_of index) <> Some MEASUREMENT_FILES ->
  display_data tree (parent_of index) <> Some VISUALIZATION_FILES ->
  display_data tree (parent_of index) <> Some CONDITION_FILES ->
  let click := exchange_dataframe_on_click index tree in
  outcome click w = inr tt /\
  active_selection (exec click w) = active_selection w /\
  exec click w = emit (RefreshPlots (active_selection w)) w /\
  refresh_count (exec click w) = refresh_count w + 1.
Proof.
  intros Hm Hv Hc. cbv zeta.
  unfold refresh_count, outcome, exec, exchange_dataframe_on_click. run.
  destruct (display_data tree (parent_of index)) as [p|]; simpl.
  - destruct (String.eqb_spec p MEASUREMENT_FILES) as [->|_]; [contradiction Hm; reflexivity|].
    destruct (String.eqb_spec p VISUALIZATION_FILES) as [->|_]; [contradiction Hv; reflexivity|].
    destruct (String.eqb_spec p CONDITION_FILES) as [->|_]; [contradiction Hc; reflexivity|].
    simpl. rewrite refreshes_app, length_app. repeat split; reflexivity.
  - rewrite refreshes_app, length_app. repeat split; reflexivity.
Qed.

Lemma click_outside_table_categories_witness :
  (let click := exchange_dataframe_on_click (LeafIndex 3 0) Fixture.tree in
   display_data Fixture.tree (LeafIndex 3 0) = Some "obs.tsv" /\
   display_data Fixture.tree (parent_of (LeafIndex 3 0)) = Some OBSERVABLE_FILES /\
   active_selection (exec click Fixture.opened) = active_selection Fixture.opened /\
   refresh_count (exec click Fixture.opened) = refresh_count Fixture.opened + 1) /\
  (let click := exchange_dataframe_on_click (BranchIndex 1) Fixture.tree in
   display_data Fixture.tree (BranchIndex 1) = Some MEASUREMENT_FILES /\
   active_selection (exec click Fixture.opened) = active_selection Fixture.opened /\
   refresh_count (exec click Fixture.opened) = refresh_count Fixture.opened + 1).
Proof.
  split; cbv zeta.
  - split; [reflexivity|]. split; [reflexivity|].
    destruct (click_outside_table_categories (LeafIndex 3 0) Fixture.tree Fixture.opened)
      as (_ & Hs & _ & Hr); [discriminate | discriminate | discriminate |].
    split; [exact Hs | exact Hr].
  - split; [reflexivity|].
    destruct (click_outside_table_categories (BranchIndex 1) Fixture.tree Fixture.opened)
      as (_ & Hs & _ & Hr); [discriminate | discriminate | discriminate |].
    split; [exact Hs | exact Hr].
Defined.

(** * Further properties *)

(** ** The table model *)

Lemma digit_value (d : nat) :
  d < 10 -> nat_of_ascii (ascii_of_nat (48 + d)) - 48 = d.
Proof.
  intros H. rewrite nat_ascii_embedding by lia. lia.
Qed.

Lemma digits_step (fuel n : nat) (acc : string) :
  digits (S fuel) n acc =
  if Nat.eqb (n / 10) 0
  then String (ascii_of_nat (48 + n mod 10)) acc
  else digits fuel (n / 10) (String (ascii_of_nat (48 + n mod 10)) acc).
Proof. reflexivity. Qed.

Lemma decimal_value_step (acc : nat) (c : ascii) (rest : string) :
  decimal_value acc (String c rest) =
  decimal_value (10 * acc + (nat_of_ascii c - 48)) rest.
Proof. reflexivity. Qed.

Lemma decimal_value_digits (fuel n : nat) (acc : string) :
  n < fuel -> decimal_value 0 (digits fuel n acc) = decimal_value n acc.
Proof.
  revert n acc. induction fuel as [|fuel IH]; intros n acc H; [lia|].
  rewrite digits_step.
  assert (Hmod : n mod 10 < 10) by (apply Nat.mod_upper_bound; lia).
  destruct (Nat.eqb_spec (n / 10) 0) as [E|E].
  - rewrite decimal_value_step, digit_value by exact Hmod.
    apply Nat.div_small_iff in E; [|lia].
    rewrite Nat.mod_small by exact E. reflexivity.
  - rewrite IH.
    + rewrite decimal_value_step, digit_value by exact Hmod.
      rewrite <- Nat.div_mod_eq. reflexivity.
    + assert (0 < n) by (destruct n; [exfalso; apply E; reflexivity | lia]).
      assert (n / 10 < n) by (apply Nat.div_lt; lia). lia.
Qed.

Lemma decimal_value_format_nat (n : nat) : decimal_value 0 (format_nat n) = n.
Proof. unfold format_nat. rewrite decimal_value_digits by lia. reflexivity. Qed.

Lemma dict_mem_existsb {V : Type} (name : string) (d : dict V) :
  dict_mem name d = existsb (String.eqb name) (map fst d).
Proof.
  unfold dict_mem. induction d as [|[k v] d IH]; simpl; [reflexivity|].
  destruct (String.eqb name k); [reflexivity | exact IH].
Qed.

Lemma shadowed_has_column (name : string) (frame : DataFrame) :
  shadowed name (newCustomTableModel frame) = has_column name frame.
Proof. unfold shadowed, has_column, columns. simpl. apply dict_mem_existsb. Qed.

Lemma py_getitem_in_range {A : Type} (l : list A) (i : Z) :
  (- Z.of_nat (List.length l) <= i < Z.of_nat (List.length l))%Z ->
  exists x, py_getitem l i = inr x /\ In x l.
Proof.
  intros H. unfold py_getitem.
  set (n := Z.of_nat (List.length l)) in *.
  set (j := if (i <? 0)%Z then (i + n)%Z else i).
  assert (Hj : (0 <= j < n)%Z) by (unfold j; destruct (Z.ltb_spec i 0); lia).
  destruct (Z.leb_spec 0 j); [|lia]. destruct (Z.ltb_spec j n); [|lia]. simpl.
  destruct (nth_error l (Z.to_nat j)) as [x|] eqn:E.
  - exists x. split; [reflexivity|]. eapply nth_error_In. exact E.
  - apply nth_error_None in E. lia.
Qed.

Lemma py_getitem_out_of_range {A : Type} (l : list A) (i : Z) :
  ~ (- Z.of_nat (List.length l) <= i < Z.of_nat (List.length l))%Z ->
  py_getitem l i = inl IndexError.
Proof.
  intros H. unfold py_getitem.
  set (n := Z.of_nat (List.length l)) in *.
  destruct (Z.ltb_spec i 0); [destruct (Z.leb_spec 0 (i + n)) | destruct (Z.leb_spec 0 i)];
    simpl; try reflexivity.
  - destruct (Z.ltb_spec (i + n) n); [lia | reflexivity].
  - destruct (Z.ltb_spec i n); [lia | reflexivity].
Qed.







Lemma digits_head (fuel n : nat) (acc : string) :
  exists d rest,
    d < 10 /\ digits (S fuel) n acc = String (ascii_of_nat (48 + d)) rest.
Proof.
  revert n acc. induction fuel as [|fuel IH]; intros n acc.
  - exists (n mod 10), acc. split; [apply Nat.mod_upper_bound; lia|].
    rewrite digits_step. destruct (Nat.eqb (n / 10) 0); reflexivity.
  - rewrite digits_step. destruct (Nat.eqb (n / 10) 0).
    + exists (n mod 10), acc. split; [apply Nat.mod_upper_bound; lia | reflexivity].
    + apply IH.
Qed.

Lemma digit_is_not_minus (d : nat) :
  d < 10 -> Ascii.eqb (ascii_of_nat (48 + d)) "-" = false.
Proof.
  intros H. do 10 (destruct d as [|d]; [reflexivity|]). lia.
Qed.

Lemma int_value_format_int (z : Z) : int_value (format_int z) = z.
Proof.
  unfold format_int. destruct (Z.ltb_spec z 0).
  - unfold int_value. rewrite Ascii.eqb_refl, decimal_value_format_nat. lia.
  - unfold format_nat at 1.
    destruct (digits_head (Z.to_nat z) (Z.to_nat z) "") as (d & rest & Hd & E).
    pose proof (decimal_value_format_nat (Z.to_nat z)) as V.
    unfold format_nat in V. rewrite E in *.
    unfold int_value. rewrite (digit_is_not_minus d Hd), V. lia.
Qed.

(** X2. The header of the model, on a frame with no column named
    [headerData]: at the display role a column section has a label
    exactly when it is an integer position pandas accepts, in
    [-columns .. columns - 1], the label is one of the frame's column
    names, and any other section raises [IndexError]; every row section
    is labelled with its decimal number, so distinct rows have distinct
    labels; at any other role there is no header data.  When a column is
    named [headerData], the attribute [load_data] set hides the method
    and every call raises [TypeError]. *)
Theorem header_labels (frame : DataFrame) :
  let m := newCustomTableModel frame in
  let cols := Z.of_nat (List.length (columns frame)) in
  (has_column "headerData" frame = true ->
   forall section orientation role,
     headerData m section orientation role = inl TypeError) /\
  (has_column "headerData" frame = false ->
   (forall section,
      (- cols <= section < cols)%Z <->
      exists name, headerData m section Horizontal DisplayRole = inr (Some name)) /\
   (forall section,
      ~ (- cols <= section < cols)%Z ->
      headerData m section Horizontal DisplayRole = inl IndexError) /\
   (forall section name,
      headerData m section Horizontal DisplayRole = inr (Some name) ->
      In name (columns frame)) /\
   (forall row,
      exists label,
        headerData m row Vertical DisplayRole = inr (Some label) /\
        int_value label = row) /\
   (forall row1 row2,
      headerData m row1 Vertical DisplayRole = headerData m row2 Vertical DisplayRole ->
      row1 = row2) /\
   (forall section orientation role,
      role <> DisplayRole -> headerData m section orientation role = inr None)).
Proof.
  cbv zeta. unfold headerData. rewrite shadowed_has_column.
  split.
  - intros H section orientation role. rewrite H. reflexivity.
  - intros H. rewrite H. simpl df.
    assert (Hin : forall section name,
              py_getitem (columns frame) section = inr name ->
              (- Z.of_nat (List.length (columns frame)) <= section
               < Z.of_nat (List.length (columns frame)))%Z /\ In name (columns frame)).
    { intros section name E.
      destruct (Z_lt_le_dec section (- Z.of_nat (List.length (columns frame)))) as [H1|H1];
        [rewrite py_getitem_out_of_range in E by lia; discriminate|].
      destruct (Z_lt_le_dec section (Z.of_nat (List.length (columns frame)))) as [H2|H2];
        [|rewrite py_getitem_out_of_range in E by lia; discriminate].
      split; [lia|].
      destruct (py_getitem_in_range (columns frame) section (conj H1 H2)) as (x & Ex & Hx).
      rewrite Ex in E. injection E as <-. exact Hx. }
    split; [|split; [|split; [|split; [|split]]]].
    + intros section. split.
      * intros Hr. destruct (py_getitem_in_range (columns frame) section Hr) as (x & Ex & _).
        exists x. rewrite Ex. reflexivity.
      * intros [name E].
        destruct (py_getitem (columns frame) section) as [e|x] eqn:Ex; [discriminate|].
        apply (Hin section x Ex).
    + intros section Hout. rewrite py_getitem_out_of_range by exact Hout. reflexivity.
    + intros section name E.
      destruct (py_getitem (columns frame) section) as [e|x] eqn:Ex; [discriminate|].
      injection E as <-. apply (Hin section x Ex).
    + intros row. exists (format_int row). split; [reflexivity|].
      apply int_value_format_int.
    + intros row1 row2 E. injection E as E.
      rewrite <- (int_value_format_int row1), <- (int_value_format_int row2), E.
      reflexivity.
    + intros section orientation role Hr. destruct role; try reflexivity. contradiction.
Qed.

Lemma header_labels_witness :
  headerData (newCustomTableModel Fixture.meas1) 2 Horizontal DisplayRole
  = inr (Some "measurement") /\
  headerData (newCustomTableModel Fixture.meas1) 4 Horizontal DisplayRole
  = inl IndexError /\
  headerData (newCustomTableModel Fixture.meas1) 12 Vertical DisplayRole
  = inr (Some "12") /\
  headerData (newCustomTableModel Fixture.meas1) 2 Horizontal BackgroundRole = inr None.
Proof.
  destruct (header_labels Fixture.meas1) as (_ & H).
  destruct (H eq_refl) as (_ & Hout & _ & _ & _ & Hr).
  split; [reflexivity|]. split; [apply Hout; simpl; lia|].
  split; [reflexivity|]. apply Hr. discriminate.
Defined.

(** ** What the handlers leave alone *)

Lemma preserves_ret {A B : Type} (f : Window -> B) (x : A) : preserves f (ret x).
Proof. intros w. reflexivity. Qed.

Lemma preserves_lift {A B : Type} (f : Window -> B) (r : Exn + A) : preserves f (lift r).
Proof. intros w. reflexivity. Qed.

Lemma preserves_gets {A B : Type} (f : Window -> B) (g : Window -> A) :
  preserves f (gets g).
Proof. intros w. reflexivity. Qed.

Lemma preserves_modify {B : Type} (f : Window -> B) (g : Window -> Window) :
  (forall w, f (g w) = f w) -> preserves f (modify g).
Proof. intros H w. apply H. Qed.

Lemma preserves_bind {A B C : Type} (f : Window -> C) (m : M A) (k : A -> M B) :
  preserves f m -> (forall x, preserves f (k x)) -> preserves f (bind m k).
Proof.
  intros Hm Hk w. unfold bind. specialize (Hm w).
  destruct (m w) as [[e|x] w1]; simpl in *.
  - exact Hm.
  - rewrite (Hk x w1). exact Hm.
Qed.

Lemma preserves_add_plots {B : Type} (f : Window -> B) :
  plain f -> preserves f add_plots.
Proof. intros [Hl _] w. unfold add_plots. simpl. rewrite emit_log. apply Hl. Qed.

Lemma preserves_load {B : Type} (f : Window -> B) (kind : FileKind)
    (ld : string -> Exn + DataFrame) (path : string) :
  plain f -> preserves f (load kind ld path).
Proof.
  intros [Hl _] w. unfold load, bind, modify, lift. simpl. rewrite emit_log. apply Hl.
Qed.

Lemma preserves_emit {B : Type} (f : Window -> B) (e : Event) :
  plain f -> preserves f (modify (emit e)).
Proof. intros [Hl _] w. unfold modify. simpl. rewrite emit_log. apply Hl. Qed.

Lemma preserves_table_tree_view {B : Type} (f : Window -> B) (petab : Petab)
    (folder_path : string) :
  plain f -> preserves f (table_tree_view petab folder_path).
Proof.
  intros (Hl & Ht & Hc & Hd) w.
  destruct (table_tree_view_frame petab folder_path w) as [evs [_ [H|[tree H]]]];
    unfold exec in H; rewrite H.
  - apply Hl.
  - rewrite Hd, Hc, Ht. apply Hl.
Qed.

Ltac plainness := repeat split; intros; reflexivity.

Ltac frame :=
  unfold add_warning, setText, insertWidget, when, pop_up_table_view;
  repeat first
    [ apply preserves_ret
    | apply preserves_lift
    | apply preserves_gets
    | apply preserves_table_tree_view; plainness
    | apply preserves_add_plots; plainness
    | apply preserves_load; plainness
    | apply preserves_emit; plainness
    | apply preserves_modify; intros; reflexivity
    | apply preserves_bind; [ | intros ]
    | progress cbv beta zeta
    | match goal with
      | |- preserves _ (if ?c then _ else _) => destruct c
      | |- preserves _ (match ?x with _ => _ end) => destruct x
      end ].

(** X3. The simulation dialog never changes the measurement table, the
    condition table, the visualization table or the manifest, whatever
    file is chosen and however the handler ends. *)
Theorem simulation_dialog_keeps_manifest_tables (petab : Petab) (home : string)
    (dialog : string -> string) (w : Window) :
  let w' := exec (show_simulation_dialog petab home dialog) w in
  exp_data w' = exp_data w /\
  condition_df w' = condition_df w /\
  visualization_df w' = visualization_df w /\
  yaml_dict w' = yaml_dict w.
Proof.
  cbv zeta. unfold exec.
  assert (H1 : preserves exp_data (show_simulation_dialog petab home dialog))
    by (unfold show_simulation_dialog; frame).
  assert (H2 : preserves condition_df (show_simulation_dialog petab home dialog))
    by (unfold show_simulation_dialog; frame).
  assert (H3 : preserves visualization_df (show_simulation_dialog petab home dialog))
    by (unfold show_simulation_dialog; frame).
  assert (H4 : preserves yaml_dict (show_simulation_dialog petab home dialog))
    by (unfold show_simulation_dialog; frame).
  repeat split; [apply H1 | apply H2 | apply H3 | apply H4].
Qed.

(** X4. A table view that is open stays as it is when a manifest is
    opened, a simulation file is attached, a tree item is clicked or the
    tree is rebuilt, whatever the outcome: only a double click replaces
    it.  In particular it keeps showing its table after that table is no
    longer active. *)
Theorem open_view_survives_other_actions (petab : Petab) (home : string)
    (dialog : string -> string) (index : QModelIndex) (tree : TreeModel)
    (folder_path : string) (w : Window) :
  table_window (exec (show_yaml_dialog petab home dialog) w) = table_window w /\
  table_window (exec (show_simulation_dialog petab home dialog) w) = table_window w /\
  table_window (exec (exchange_dataframe_on_click index tree) w) = table_window w /\
  table_window (exec (table_tree_view petab folder_path) w) = table_window w.
Proof.
  unfold exec.
  assert (H1 : preserves table_window (show_yaml_dialog petab home dialog))
    by (unfold show_yaml_dialog; frame).
  assert (H2 : preserves table_window (show_simulation_dialog petab home dialog))
    by (unfold show_simulation_dialog; frame).
  assert (H3 : preserves table_window (exchange_dataframe_on_click index tree))
    by (unfold exchange_dataframe_on_click; frame).
  assert (H4 : preserves table_window (table_tree_view petab folder_path))
    by frame.
  repeat split; [apply H1 | apply H2 | apply H3 | apply H4].
Qed.

(** ** The stored directory *)

Lemma bind_gets {A B : Type} (g : Window -> A) (k : A -> M B) (w : Window) :
  bind (gets g) k w = k (g w) w.
Proof. reflexivity. Qed.

Lemma bind_modify {B : Type} (g : Window -> Window) (k : unit -> M B) (w : Window) :
  bind (modify g) k w = k tt (g w).
Proof. reflexivity. Qed.

(** X5. Once a file is chosen in the manifest dialog, its directory is
    stored as the last used directory before anything is loaded: it is
    stored whether the handler returns or an exception leaves it, and the
    next dialog opens on it.  A cancelled dialog stores nothing. *)
Theorem yaml_dialog_stores_directory (petab : Petab) (home : string)
    (dialog : string -> string) (w : Window) (file_name : string) :
  dialog (start_dir home w) = file_name ->
  let w' := exec (show_yaml_dialog petab home dialog) w in
  (file_name <> "" ->
   last_dir_setting w' = Some (dirname file_name) /\
   start_dir home w' = dirname file_name) /\
  (file_name = "" -> last_dir_setting w' = last_dir_setting w).
Proof.
  intros Hfile. cbv zeta. unfold exec, show_yaml_dialog.
  rewrite bind_gets. cbv beta zeta. rewrite Hfile.
  split.
  - intros Hne.
    destruct (String.eqb_spec file_name "") as [E|_]; [contradiction|].
    rewrite bind_modify.
    match goal with
    | |- last_dir_setting (snd (?m ?w0)) = _ /\ _ =>
        assert (P : preserves last_dir_setting m) by frame;
        assert (Q : last_dir_setting (snd (m w0)) = Some (dirname file_name))
          by (rewrite (P w0); reflexivity)
    end.
    split; [exact Q|]. unfold start_dir. rewrite Q. reflexivity.
  - intros ->. reflexivity.
Qed.

Lemma yaml_dialog_stores_directory_witness :
  let broken := show_yaml_dialog Fixture.petab Fixture.home
                  (Fixture.pick "/elsewhere/broken.yaml") in
  outcome broken Fixture.opened = inl (PetabError "cannot read /elsewhere/broken.yaml") /\
  last_dir_setting Fixture.opened = Some "/data" /\
  last_dir_setting (exec broken Fixture.opened) = Some "/elsewhere" /\
  start_dir Fixture.home (exec broken Fixture.opened) = "/elsewhere".
Proof.
  cbv zeta. split; [reflexivity|]. split; [reflexivity|].
  destruct (yaml_dialog_stores_directory Fixture.petab Fixture.home
              (Fixture.pick "/elsewhere/broken.yaml") Fixture.opened
              "/elsewhere/broken.yaml") as [H _]; [reflexivity|].
  destruct H as [H1 H2]; [discriminate|].
  split; [exact H1 | exact H2].
Defined.

(** X6. The simulation dialog stores the directory of the chosen file
    only at its end: it is stored when the handler returns (also when it
    only warned that no manifest is open) and is left as it was when an
    exception leaves the handler. *)
Theorem simulation_dialog_stores_directory_on_return (petab : Petab) (home : string)
    (dialog : string -> string) (w : Window) (file_name : string) :
  dialog (start_dir home w) = file_name ->
  file_name <> "" ->
  let attach := show_simulation_dialog petab home dialog in
  (outcome attach w = inr tt ->
   last_dir_setting (exec attach w) = Some (dirname file_name)) /\
  (forall e, outcome attach w = inl e ->
             last_dir_setting (exec attach w) = last_dir_setting w).
Proof.
  intros Hfile Hne. cbv zeta. unfold outcome, exec, show_simulation_dialog.
  rewrite bind_gets. cbv beta zeta. rewrite Hfile.
  destruct (String.eqb_spec file_name "") as [E|_]; [contradiction|].
  rewrite bind_gets.
  match goal with
  | |- context [bind ?m ?k w] =>
      assert (P : preserves last_dir_setting m) by frame;
      specialize (P w);
      replace (bind m k w)
        with (match m w with
              | (inr x, w1) => k x w1
              | (inl e, w1) => (inl e, w1)
              end) by reflexivity;
      destruct (m w) as [[e|u] w1]
  end; simpl in *.
  - split; [discriminate|]. intros e' _. exact P.
  - split; [reflexivity|]. intros e' H. discriminate H.
Qed.

Lemma simulation_dialog_stores_directory_on_return_witness :
  let failing := show_simulation_dialog Fixture.petab Fixture.home
                   (Fixture.pick "/results/sim.tsv") in
  outcome failing Fixture.opened = inl (PetabError "cannot read /results/meas1.tsv") /\
  last_dir_setting (exec failing Fixture.opened) = Some "/data" /\
  last_dir_setting (exec
     (show_simulation_dialog Fixture.petab Fixture.home (Fixture.pick "/results/sim.tsv"))
     Fixture.empty_window) = Some "/results".
Proof.
  cbv zeta. split; [reflexivity|].
  destruct (simulation_dialog_stores_directory_on_return Fixture.petab Fixture.home
              (Fixture.pick "/results/sim.tsv") Fixture.opened "/results/sim.tsv")
    as [_ H]; [reflexivity | discriminate |].
  split; [exact (H _ eq_refl)|].
  destruct (simulation_dialog_stores_directory_on_return Fixture.petab Fixture.home
              (Fixture.pick "/results/sim.tsv") Fixture.empty_window "/results/sim.tsv")
    as [H' _]; [reflexivity | discriminate |].
  exact (H' eq_refl).
Defined.

(** ** The tree of a manifest *)

Lemma leaf_kind_other (key : string) :
  key <> MEASUREMENT_FILES -> key <> VISUALIZATION_FILES ->
  key <> CONDITION_FILES -> key <> OBSERVABLE_FILES ->
  leaf_kind key = None.
Proof.
  intros Hm Hv Hc Ho. unfold leaf_kind.
  destruct (String.eqb_spec key MEASUREMENT_FILES); [contradiction|].
  destruct (String.eqb_spec key VISUALIZATION_FILES); [contradiction|].
  destruct (String.eqb_spec key CONDITION_FILES); [contradiction|].
  destruct (String.eqb_spec key OBSERVABLE_FILES); [contradiction|].
  reflexivity.
Qed.

Lemma expected_branches_names (petab : Petab) (folder_path : string) (items : YamlDict) :
  map branch_name (expected_branches petab folder_path items) = map fst items.
Proof.
  unfold expected_branches. rewrite map_map. reflexivity.
Qed.

Lemma expected_branches_length (petab : Petab) (folder_path : string) (items : YamlDict) :
  List.length (expected_branches petab folder_path items) = List.length items.
Proof. unfold expected_branches. apply length_map. Qed.

Lemma expected_tree_branch (petab : Petab) (folder_path : string) (items : YamlDict)
    (sim : option DataFrame) (b : nat) (key : string) (files : list string) :
  nth_error items b = Some (key, files) ->
  nth_error (expected_tree petab folder_path items sim) b =
  Some {| branch_name := key;
          branch_rows :=
            map (fun filename =>
                   {| leaf_name := filename;
                      leaf_data := leaf_value petab key (join folder_path filename) |})
                files |}.
Proof.
  intros H.
  assert (E : nth_error (expected_branches petab folder_path items) b =
              Some {| branch_name := key;
                      branch_rows :=
                        map (fun filename =>
                               {| leaf_name := filename;
                                  leaf_data :=
                                    leaf_value petab key (join folder_path filename) |})
                            files |}).
  { unfold expected_branches. rewrite nth_error_map, H. reflexivity. }
  unfold expected_tree. destruct sim; [|exact E].
  rewrite nth_error_app1; [exact E|].
  apply nth_error_Some. rewrite E. discriminate.
Qed.

Lemma expected_tree_leaf (petab : Petab) (folder_path : string) (items : YamlDict)
    (sim : option DataFrame) (b r : nat) (key f : string) (files : list string) :
  nth_error items b = Some (key, files) ->
  nth_error files r = Some f ->
  leaf_at (expected_tree petab folder_path items sim) b r =
  Some {| leaf_name := f; leaf_data := leaf_value petab key (join folder_path f) |}.
Proof.
  intros Hb Hr. unfold leaf_at.
  rewrite (expected_tree_branch petab folder_path items sim b key files Hb). simpl.
  rewrite nth_error_map, Hr. reflexivity.
Qed.

Lemma loadable_leaf (petab : Petab) (folder_path : string) (items : YamlDict)
    (b r : nat) (key f : string) (files : list string) :
  loadable petab folder_path items ->
  nth_error items b = Some (key, files) ->
  nth_error files r = Some f ->
  exists v, leaf_result petab key (join folder_path f) = inr v.
Proof.
  intros Hl Hb Hr. apply (Hl key files f).
  - eapply nth_error_In. exact Hb.
  - eapply nth_error_In. exact Hr.
Qed.

(** X7. The files a manifest names under a key other than the four table
    categories (the model files, for one) are never read when the tree is
    built: their branch is built without touching the window, and every
    leaf of it holds no table. *)
Theorem other_categories_are_not_read (petab : Petab) (key folder_path : string)
    (filenames : list string) (w : Window) :
  key <> MEASUREMENT_FILES -> key <> VISUALIZATION_FILES ->
  key <> CONDITION_FILES -> key <> OBSERVABLE_FILES ->
  branch_leaves petab key folder_path filenames w =
  (inr (map (fun filename => {| leaf_name := filename; leaf_data := None |}) filenames), w).
Proof.
  intros Hm Hv Hc Ho.
  pose proof (leaf_kind_other key Hm Hv Hc Ho) as Hk.
  revert w. induction filenames as [|f filenames IH]; intros w; simpl.
  - reflexivity.
  - unfold bind. rewrite leaf_frame_run.
    unfold leaf_result, leaf_loads. rewrite Hk, log_nil, IH. reflexivity.
Qed.

Lemma other_categories_are_not_read_witness :
  branch_leaves Fixture.petab "sbml_files" "/data" ["model.xml"; "other.xml"]
                Fixture.empty_window =
  (inr [ {| leaf_name := "model.xml"; leaf_data := None |};
         {| leaf_name := "other.xml"; leaf_data := None |} ],
   Fixture.empty_window).
Proof.
  apply (other_categories_are_not_read Fixture.petab "sbml_files" "/data"
           ["model.xml"; "other.xml"] Fixture.empty_window); discriminate.
Defined.

(** X8. When a file cannot be loaded while the tree is rebuilt, the
    exception leaves [table_tree_view] before the new model is given to
    the view: the previous tree stays, as do the four tables, and no plot
    is refreshed.  When the function returns, the view has a tree. *)
Theorem failed_rebuild_keeps_tree (petab : Petab) (folder_path : string) (w : Window) :
  let build := table_tree_view petab folder_path in
  (forall e, outcome build w = inl e ->
             tree_view (exec build w) = tree_view w /\
             active_selection (exec build w) = active_selection w /\
             refreshes (trace (exec build w)) = refreshes (trace w)) /\
  (outcome build w = inr tt -> tree_view (exec build w) <> None).
Proof.
  cbv zeta. unfold outcome, exec, table_tree_view, bind, gets, lift, modify.
  destruct (yaml_dict w) as [items|]; simpl.
  - destruct (tree_branches_log petab folder_path items w) as [evs [Hl Hw]].
    destruct (tree_branches petab folder_path items w) as [[e|bs] w1]; simpl in *; subst w1.
    + split; [|discriminate]. intros e' _. simpl.
      rewrite (refreshes_trace_loads _ _ Hl). repeat split; reflexivity.
    + split; [discriminate|]. intros _. simpl. discriminate.
  - split; [|discriminate]. intros e' _. repeat split; reflexivity.
Qed.

Lemma failed_rebuild_keeps_tree_witness :
  let build := table_tree_view Fixture.petab "/results" in
  outcome build Fixture.opened = inl (PetabError "cannot read /results/meas1.tsv") /\
  tree_view (exec build Fixture.opened) = Some Fixture.tree.
Proof.
  cbv zeta. split; [reflexivity|].
  destruct (failed_rebuild_keeps_tree Fixture.petab "/results" Fixture.opened) as [H _].
  destruct (H (PetabError "cannot read /results/meas1.tsv") eq_refl) as [Ht _].
  rewrite Ht. reflexivity.
Defined.

(** X9. When every file of the manifest loads, the tree mirrors the
    manifest: branch [b] carries the name of the manifest's key number
    [b], its leaf [r] carries the name of that key's file number [r], and
    the leaf holds the table the key's loader returned for that file in
    [folder_path] (no table for a key that is not a table category). *)
Theorem tree_mirrors_manifest (petab : Petab) (folder_path : string) (items : YamlDict)
    (w : Window) (b r : nat) (key f : string) (files : list string) :
  yaml_dict w = Some items ->
  loadable petab folder_path items ->
  nth_error items b = Some (key, files) ->
  nth_error files r = Some f ->
  exists tree,
    tree_view (exec (table_tree_view petab folder_path) w) = Some tree /\
    display_data tree (BranchIndex b) = Some key /\
    display_data tree (LeafIndex b r) = Some f /\
    display_data tree (parent_of (LeafIndex b r)) = Some key /\
    (forall kind, leaf_kind key = Some kind ->
       exists d, loader petab kind (folder_path ++ "/" ++ f)%string = inr d /\
                 user_data tree (LeafIndex b r) = Some d) /\
    (leaf_kind key = None -> user_data tree (LeafIndex b r) = None).
Proof.
  intros Hy Hl Hb Hr. unfold exec.
  rewrite (table_tree_view_loadable petab folder_path items w Hy Hl). simpl.
  eexists. split; [reflexivity|].
  pose proof (expected_tree_branch petab folder_path items (simulation_df w) b key files Hb)
    as Eb.
  pose proof (expected_tree_leaf petab folder_path items (simulation_df w) b r key f files
                Hb Hr) as El.
  destruct (loadable_leaf petab folder_path items b r key f files Hl Hb Hr) as [v Hv].
  unfold display_data, user_data, parent_of. rewrite Eb, El. simpl.
  repeat split.
  - intros kind Hk. unfold leaf_value. unfold leaf_result in *. rewrite Hk in *.
    unfold join in *. simpl in *.
    destruct (loader petab kind (folder_path ++ String "/" f)) as [e|d];
      [discriminate|].
    exists d. split; reflexivity.
  - intros Hk. unfold leaf_value, leaf_result. rewrite Hk. reflexivity.
Qed.

Lemma tree_mirrors_manifest_witness :
  exists tree,
    tree_view (exec (table_tree_view Fixture.petab "/data") Fixture.parsed) = Some tree /\
    display_data tree (LeafIndex 1 1) = Some "meas2.tsv" /\
    display_data tree (parent_of (LeafIndex 1 1)) = Some MEASUREMENT_FILES /\
    user_data tree (LeafIndex 1 1) = Some Fixture.meas2.
Proof.
  destruct (tree_mirrors_manifest Fixture.petab "/data" Fixture.problem Fixture.parsed
              1 1 MEASUREMENT_FILES "meas2.tsv" ["meas1.tsv"; "meas2.tsv"])
    as (tree & Ht & _ & Hn & Hp & Hd & _);
    [reflexivity | apply loadableb_sound; reflexivity | reflexivity | reflexivity |].
  exists tree. split; [exact Ht|]. split; [exact Hn|]. split; [exact Hp|].
  destruct (Hd MeasurementFile eq_refl) as (d & Hload & Hu).
  rewrite Hu. f_equal. vm_compute in Hload. injection Hload as <-. reflexivity.
Defined.

(** X10. When every file of the manifest loads, the branches of the tree
    are the manifest's keys in order, followed by one branch
    [simulation_files] exactly when a simulation table is attached; that
    branch has the single leaf [simulation_file], which holds the
    attached table. *)
Theorem tree_simulation_branch (petab : Petab) (folder_path : string) (items : YamlDict)
    (w : Window) :
  yaml_dict w = Some items ->
  loadable petab folder_path items ->
  exists tree,
    tree_view (exec (table_tree_view petab folder_path) w) = Some tree /\
    map branch_name tree =
    map fst items ++
    match simulation_df w with Some _ => ["simulation_files"] | None => [] end /\
    forall s, simulation_df w = Some s ->
      display_data tree (LeafIndex (List.length items) 0) = Some "simulation_file" /\
      user_data tree (LeafIndex (List.length items) 0) = Some s /\
      leaf_at tree (List.length items) 1 = None.
Proof.
  intros Hy Hl. unfold exec.
  rewrite (table_tree_view_loadable petab folder_path items w Hy Hl). simpl.
  eexists. split; [reflexivity|]. unfold expected_tree. split.
  - destruct (simulation_df w).
    + rewrite map_app, expected_branches_names. reflexivity.
    + rewrite expected_branches_names, app_nil_r. reflexivity.
  - intros s Hs. rewrite Hs.
    unfold display_data, user_data, leaf_at.
    rewrite nth_error_app2 by (rewrite expected_branches_length; lia).
    rewrite expected_branches_length, Nat.sub_diag. simpl.
    repeat split; reflexivity.
Qed.

Lemma tree_simulation_branch_witness :
  exists tree,
    tree_view (exec (table_tree_view Fixture.petab "/data") Cases.attached) = Some tree /\
    map branch_name tree =
    ["sbml_files"; MEASUREMENT_FILES; CONDITION_FILES; OBSERVABLE_FILES;
     VISUALIZATION_FILES; "simulation_files"] /\
    user_data tree (LeafIndex 5 0) = simulation_df Cases.attached.
Proof.
  destruct (tree_simulation_branch Fixture.petab "/data" Fixture.problem Cases.attached)
    as (tree & Ht & Hn & Hs);
    [reflexivity | apply loadableb_sound; reflexivity |].
  exists tree. split; [exact Ht|]. split; [exact Hn|].
  destruct (Hs _ eq_refl) as (_ & Hu & _). exact Hu.
Defined.

(** ** Clicks on the tree *)

Lemma exchange_on_measurement (index : QModelIndex) (tree : TreeModel) (w : Window) :
  display_data tree (parent_of index) = Some MEASUREMENT_FILES ->
  exchange_dataframe_on_click index tree w =
  (inr tt,
   emit (RefreshPlots (active_selection (set_exp_data (user_data tree index) w)))
        (set_exp_data (user_data tree index) w)).
Proof.
  intros H. unfold exchange_dataframe_on_click. rewrite H. reflexivity.
Qed.

Lemma exchange_on_visualization (index : QModelIndex) (tree : TreeModel) (w : Window) :
  display_data tree (parent_of index) = Some VISUALIZATION_FILES ->
  exchange_dataframe_on_click index tree w =
  (inr tt,
   emit (RefreshPlots (active_selection (set_visualization_df (user_data tree index) w)))
        (set_visualization_df (user_data tree index) w)).
Proof.
  intros H. unfold exchange_dataframe_on_click. rewrite H. reflexivity.
Qed.

Lemma exchange_on_condition (index : QModelIndex) (tree : TreeModel) (w : Window) :
  display_data tree (parent_of index) = Some CONDITION_FILES ->
  exchange_dataframe_on_click index tree w =
  (inr tt,
   emit (RefreshPlots (active_selection (set_condition_df (user_data tree index) w)))
        (set_condition_df (user_data tree index) w)).
Proof.
  intros H. unfold exchange_dataframe_on_click. rewrite H. reflexivity.
Qed.

(** X11. A click on a file of the measurement, visualization or condition
    category installs the table stored in the clicked leaf as the table
    of that category and leaves the tables of the two other categories as
    they were.  No click changes the simulation table, the manifest or
    the tree. *)
Theorem click_installs_leaf_table (index : QModelIndex) (tree : TreeModel) (w : Window) :
  let w' := exec (exchange_dataframe_on_click index tree) w in
  (display_data tree (parent_of index) = Some MEASUREMENT_FILES ->
   exp_data w' = user_data tree index /\
   visualization_df w' = visualization_df w /\
   condition_df w' = condition_df w) /\
  (display_data tree (parent_of index) = Some VISUALIZATION_FILES ->
   visualization_df w' = user_data tree index /\
   exp_data w' = exp_data w /\
   condition_df w' = condition_df w) /\
  (display_data tree (parent_of index) = Some CONDITION_FILES ->
   condition_df w' = user_data tree index /\
   exp_data w' = exp_data w /\
   visualization_df w' = visualization_df w) /\
  simulation_df w' = simulation_df w /\
  yaml_dict w' = yaml_dict w /\
  tree_view w' = tree_view w.
Proof.
  cbv zeta. unfold exec.
  split; [|split; [|split]].
  - intros H. rewrite (exchange_on_measurement index tree w H). repeat split.
  - intros H. rewrite (exchange_on_visualization index tree w H). repeat split.
  - intros H. rewrite (exchange_on_condition index tree w H). repeat split.
  - assert (H1 : preserves simulation_df (exchange_dataframe_on_click index tree))
      by (unfold exchange_dataframe_on_click; frame).
    assert (H2 : preserves yaml_dict (exchange_dataframe_on_click index tree))
      by (unfold exchange_dataframe_on_click; frame).
    assert (H3 : preserves tree_view (exchange_dataframe_on_click index tree)).
    { unfold exchange_dataframe_on_click, add_plots, when.
      intros w0. unfold bind, modify, ret.
      destruct (display_data tree (parent_of index)) as [p|]; simpl;
        [ destruct (String.eqb p MEASUREMENT_FILES);
          destruct (String.eqb p VISUALIZATION_FILES);
          destruct (String.eqb p CONDITION_FILES) | ]; reflexivity. }
    repeat split; [apply H1 | apply H2 | apply H3].
Qed.

Lemma click_installs_leaf_table_witness :
  let click := exchange_dataframe_on_click (LeafIndex 1 1) Fixture.tree in
  display_data Fixture.tree (parent_of (LeafIndex 1 1)) = Some MEASUREMENT_FILES /\
  exp_data Fixture.opened = Some Fixture.meas1 /\
  exp_data (exec click Fixture.opened) = Some Fixture.meas2 /\
  condition_df (exec click Fixture.opened) = Some Fixture.cond.
Proof.
  cbv zeta. split; [reflexivity|]. split; [reflexivity|].
  destruct (click_installs_leaf_table (LeafIndex 1 1) Fixture.tree Fixture.opened)
    as (H & _).
  destruct (H eq_refl) as (He & _ & Hc).
  split; [rewrite He; reflexivity | rewrite Hc; reflexivity].
Defined.

Lemma show_yaml_dialog_connects (petab : Petab) (home : string)
    (dialog : string -> string) (w : Window) (file_name : string) (yd : YamlDict)
    (m c : DataFrame) :
  dialog (start_dir home w) = file_name ->
  file_name <> "" ->
  valid_manifest petab file_name yd m c ->
  let w1 := exec (show_yaml_dialog petab home dialog) w in
  clicked_slots w1 = clicked_slots w ++ [expected_tree petab (dirname file_name) yd None] /\
  doubleClicked_slots w1 =
  doubleClicked_slots w ++ [expected_tree petab (dirname file_name) yd None].
Proof.
  intros Hfile Hne [Hp Hm Hc Hv Ht].
  destruct (manifest_problem_inv _ _ _ Hp) as (doc & problems & Hd & Hps & Hyd).
  destruct (first_table_inv _ _ _ _ _ Hm) as (mfs & mf & Hm1 & Hm2 & Hm3).
  destruct (first_table_inv _ _ _ _ _ Hc) as (cfs & cf & Hc1 & Hc2 & Hc3).
  cbv zeta. unfold exec.
  destruct (show_yaml_dialog petab home dialog w) as [res w'] eqn:E.
  unfold show_yaml_dialog in E. run. rewrite Hfile in E.
  destruct (String.eqb_spec file_name "") as [E0|_]; [contradiction|].
  rewrite Hd in E; simpl in E. rewrite Hps in E; simpl in E. rewrite Hyd in E; simpl in E.
  rewrite Hm1 in E; simpl in E. rewrite Hm2 in E; simpl in E. rewrite Hm3 in E; simpl in E.
  rewrite Hc1 in E; simpl in E. rewrite Hc2 in E; simpl in E. rewrite Hc3 in E; simpl in E.
  destruct (dict_mem VISUALIZATION_FILES yd) eqn:Hmem.
  - destruct (Hv eq_refl) as [v Hv'].
    destruct (first_table_inv _ _ _ _ _ Hv') as (vfs & vf & Hv1 & Hv2 & Hv3).
    rewrite Hv1 in E; simpl in E. rewrite Hv2 in E; simpl in E. rewrite Hv3 in E; simpl in E.
    rewrite table_tree_view_loadable with (items := yd) in E
      by (try reflexivity; exact Ht).
    injection E as _ <-. split; reflexivity.
  - rewrite table_tree_view_loadable with (items := yd) in E
      by (try reflexivity; exact Ht).
    injection E as _ <-. split; reflexivity.
Qed.

(** The handlers of earlier builds install nothing and refresh the plots
    once each; then the handler of the shown tree runs. *)
Lemma run_clicked_earlier (index : QModelIndex) (earlier : list TreeModel)
    (tree : TreeModel) (w : Window) :
  exists evs,
    List.length (refreshes evs) = List.length earlier /\
    run_clicked index (earlier ++ [tree]) w =
    exchange_dataframe_on_click index tree (log evs w).
Proof.
  revert w. induction earlier as [|old earlier IH]; intros w.
  - exists []. rewrite log_nil. split; reflexivity.
  - destruct (IH (log [RefreshPlots (active_selection w)] w)) as (evs & Hn & Hr).
    exists (RefreshPlots (active_selection w) :: evs). split; [simpl; rewrite Hn; reflexivity|].
    change ((old :: earlier) ++ [tree]) with (old :: (earlier ++ [tree])).
    destruct (earlier ++ [tree]) as [|t rest] eqn:El.
    + destruct earlier; discriminate.
    + change (run_clicked index (old :: t :: rest) w)
        with (bind (exchange_dataframe_on_click InvalidIndex old)
                   (fun _ => run_clicked index (t :: rest)) w).
      unfold bind at 1.
      change (exchange_dataframe_on_click InvalidIndex old w)
        with (inr tt : Exn + unit, log [RefreshPlots (active_selection w)] w).
      cbv iota beta. rewrite Hr, log_log. reflexivity.
Qed.

(** X12. After a valid manifest is opened, the handlers of the new tree
    are connected in addition to all that were connected before.  A click
    on file [r] of the manifest's measurement category then runs every
    connected click handler: those of earlier builds install nothing, the
    one of the new tree makes the table of that file, as loaded from the
    manifest's directory, the active measurement table.  The condition
    table of the manifest stays, no simulation table is attached, and the
    plots are refreshed once by every connected handler: once more than
    the number of handlers connected before the manifest was opened. *)
Theorem opened_manifest_click_switches_measurement (petab : Petab) (home : string)
    (dialog : string -> string) (w : Window) (file_name : string) (yd : YamlDict)
    (m c : DataFrame) (b r : nat) (files : list string) (f : string) :
  dialog (start_dir home w) = file_name ->
  file_name <> "" ->
  valid_manifest petab file_name yd m c ->
  nth_error yd b = Some (MEASUREMENT_FILES, files) ->
  nth_error files r = Some f ->
  let w1 := exec (show_yaml_dialog petab home dialog) w in
  exists tree d,
    tree_view w1 = Some tree /\
    clicked_slots w1 = clicked_slots w ++ [tree] /\
    get_measurement_df petab (dirname file_name ++ "/" ++ f)%string = inr d /\
    let w2 := exec (clicked (LeafIndex b r)) w1 in
    outcome (clicked (LeafIndex b r)) w1 = inr tt /\
    exp_data w2 = Some d /\
    condition_df w2 = Some c /\
    visualization_df w2 = visualization_df w1 /\
    simulation_df w2 = None /\
    refresh_count w2 = refresh_count w1 + List.length (clicked_slots w) + 1.
Proof.
  intros Hfile Hne Hvalid Hb Hr. cbv zeta.
  destruct (show_yaml_dialog_valid petab home dialog w file_name yd m c Hfile Hne Hvalid)
    as (_ & _ & Hc & Hs & _ & Ht & _).
  destruct (show_yaml_dialog_connects petab home dialog w file_name yd m c
              Hfile Hne Hvalid) as (Hk & _).
  cbv zeta in Hc, Hs, Ht, Hk.
  destruct Hvalid as [_ _ _ _ Hl].
  destruct (loadable_leaf petab (dirname file_name) yd b r MEASUREMENT_FILES f files
              Hl Hb Hr) as [v Hv].
  unfold leaf_result in Hv. simpl in Hv. unfold join in Hv. simpl in Hv.
  destruct (get_measurement_df petab (dirname file_name ++ String "/" f)) as [e|d] eqn:Hd;
    [discriminate|].
  exists (expected_tree petab (dirname file_name) yd None), d.
  split; [exact Ht|]. split; [exact Hk|]. split; [exact Hd|].
  assert (Hp : display_data (expected_tree petab (dirname file_name) yd None)
                            (parent_of (LeafIndex b r)) = Some MEASUREMENT_FILES).
  { change (parent_of (LeafIndex b r)) with (BranchIndex b). unfold display_data.
    rewrite (expected_tree_branch petab (dirname file_name) yd None b
               MEASUREMENT_FILES files Hb). reflexivity. }
  assert (Hu : user_data (expected_tree petab (dirname file_name) yd None)
                         (LeafIndex b r) = Some d).
  { unfold user_data.
    rewrite (expected_tree_leaf petab (dirname file_name) yd None b r
               MEASUREMENT_FILES f files Hb Hr). simpl.
    unfold leaf_value, leaf_result, join. simpl. rewrite Hd. reflexivity. }
  set (w1 := exec (show_yaml_dialog petab home dialog) w) in *.
  destruct (run_clicked_earlier (LeafIndex b r) (clicked_slots w)
              (expected_tree petab (dirname file_name) yd None) w1) as (evs & Hn & Hrun).
  assert (E : clicked (LeafIndex b r) w1 =
              (inr tt,
               emit (RefreshPlots (active_selection (set_exp_data (Some d) (log evs w1))))
                    (set_exp_data (Some d) (log evs w1)))).
  { unfold clicked. rewrite bind_gets, Hk, Hrun.
    rewrite (exchange_on_measurement _ _ _ Hp), Hu. reflexivity. }
  unfold outcome, exec. rewrite E. simpl.
  split; [reflexivity|]. split; [reflexivity|]. split; [exact Hc|].
  split; [reflexivity|]. split; [exact Hs|].
  unfold refresh_count. simpl.
  repeat rewrite refreshes_app. repeat rewrite length_app. rewrite Hn. simpl. lia.
Qed.

Lemma opened_manifest_click_switches_measurement_witness :
  let w1 := exec (show_yaml_dialog Fixture.petab Fixture.home
                    (Fixture.pick "/data/problem.yaml")) Cases.attached in
  List.length (clicked_slots Cases.attached) = 2 /\
  exp_data w1 = Some Fixture.meas1 /\
  exp_data (exec (clicked (LeafIndex 1 1)) w1) = Some Fixture.meas2 /\
  refresh_count (exec (clicked (LeafIndex 1 1)) w1) = refresh_count w1 + 3.
Proof.
  cbv zeta.
  destruct (opened_manifest_click_switches_measurement Fixture.petab Fixture.home
              (Fixture.pick "/data/problem.yaml") Cases.attached
              "/data/problem.yaml" Fixture.problem Fixture.meas1 Fixture.cond
              1 1 ["meas1.tsv"; "meas2.tsv"] "meas2.tsv")
    as (tree & d & Ht & Hk & Hd & _ & He & _ & _ & _ & Hn);
    [reflexivity | discriminate | exact fixture_manifest_valid
    | reflexivity | reflexivity |].
  split; [reflexivity|]. split; [reflexivity|].
  split.
  - rewrite He. vm_compute in Hd. injection Hd as <-. reflexivity.
  - rewrite Hn. reflexivity.
Defined.

(** X13. A click on a measurement file followed by a double click on the
    same item: the view that opens wraps the very table that is now the
    active measurement table, holds that table's row and column counts,
    and is shown.  Its [rowCount] and [columnCount] methods report those
    counts unless the table has a column of that name, which hides the
    method. *)
Theorem inspect_after_click_shows_active_table (index : QModelIndex) (tree : TreeModel)
    (w : Window) (d : DataFrame) :
  display_data tree (parent_of index) = Some MEASUREMENT_FILES ->
  user_data tree index = Some d ->
  let w1 := exec (exchange_dataframe_on_click index tree) w in
  let w2 := exec (display_table_on_doubleclick index tree) w1 in
  exp_data w2 = Some d /\
  exists view,
    table_window w2 = Some view /\
    Some (df (model view)) = exp_data w2 /\
    row_count (model view) = df_rows d /\
    column_count (model view) = List.length (columns d) /\
    shown view = true /\
    rowCount (model view) =
    (if has_column "rowCount" d then inl TypeError else inr (df_rows d)) /\
    columnCount (model view) =
    (if has_column "columnCount" d then inl TypeError
     else inr (List.length (columns d))).
Proof.
  intros Hp Hu. cbv zeta. unfold exec.
  rewrite (exchange_on_measurement index tree w Hp), Hu.
  unfold display_table_on_doubleclick. rewrite Hu.
  unfold pop_up_table_view, bind, modify. simpl.
  split; [reflexivity|]. eexists. split; [reflexivity|].
  split; [reflexivity|]. split; [reflexivity|].
  split; [unfold columns; rewrite length_map; reflexivity|].
  split; [reflexivity|].
  unfold rowCount, columnCount, shadowed, has_column, columns. simpl.
  repeat rewrite dict_mem_existsb. rewrite length_map.
  split; reflexivity.
Qed.

Lemma inspect_after_click_shows_active_table_witness :
  let w1 := exec (exchange_dataframe_on_click (LeafIndex 1 1) Fixture.tree) Fixture.opened in
  let w2 := exec (display_table_on_doubleclick (LeafIndex 1 1) Fixture.tree) w1 in
  exp_data w2 = Some Fixture.meas2 /\
  option_map (fun view => df (model view)) (table_window w2) = Some Fixture.meas2.
Proof.
  cbv zeta.
  destruct (inspect_after_click_shows_active_table (LeafIndex 1 1) Fixture.tree
              Fixture.opened Fixture.meas2)
    as (He & view & Hv & Hd & _); [reflexivity | reflexivity |].
  split; [exact He|]. rewrite Hv. simpl. rewrite He in Hd. exact Hd.
Defined.

(** X14. A double click opens nothing on a category node, and nothing on
    a file of a key that is not one of the four table categories in a
    tree built from the manifest: the handler returns and the window is
    as before. *)
Theorem nothing_to_inspect (petab : Petab) (folder_path : string) (items : YamlDict)
    (w0 w : Window) (b r : nat) (key : string) (files : list string) :
  yaml_dict w0 = Some items ->
  loadable petab folder_path items ->
  nth_error items b = Some (key, files) ->
  key <> MEASUREMENT_FILES -> key <> VISUALIZATION_FILES ->
  key <> CONDITION_FILES -> key <> OBSERVABLE_FILES ->
  exists tree,
    tree_view (exec (table_tree_view petab folder_path) w0) = Some tree /\
    display_table_on_doubleclick (LeafIndex b r) tree w = (inr tt, w) /\
    forall b', display_table_on_doubleclick (BranchIndex b') tree w = (inr tt, w).
Proof.
  intros Hy Hl Hb Hm Hv Hc Ho. unfold exec.
  rewrite (table_tree_view_loadable petab folder_path items w0 Hy Hl). simpl.
  eexists. split; [reflexivity|]. split; [|reflexivity].
  unfold display_table_on_doubleclick, user_data.
  destruct (nth_error files r) as [f|] eqn:Hr.
  - rewrite (expected_tree_leaf petab folder_path items (simulation_df w0) b r key f files
               Hb Hr). simpl.
    unfold leaf_value, leaf_result. rewrite (leaf_kind_other key Hm Hv Hc Ho). reflexivity.
  - unfold leaf_at.
    rewrite (expected_tree_branch petab folder_path items (simulation_df w0) b key files
               Hb). simpl.
    rewrite nth_error_map, Hr. reflexivity.
Qed.

Lemma nothing_to_inspect_witness :
  exists tree,
    tree_view (exec (table_tree_view Fixture.petab "/data") Fixture.parsed) = Some tree /\
    display_data tree (LeafIndex 0 0) = Some "model.xml" /\
    display_table_on_doubleclick (LeafIndex 0 0) tree Fixture.opened
    = (inr tt, Fixture.opened).
Proof.
  destruct (nothing_to_inspect Fixture.petab "/data" Fixture.problem Fixture.parsed
              Fixture.opened 0 0 "sbml_files" ["model.xml"])
    as (tree & Ht & Hd & _);
    [reflexivity | apply loadableb_sound; reflexivity | reflexivity
    | discriminate | discriminate | discriminate | discriminate |].
  exists tree. split; [exact Ht|]. split; [|exact Hd].
  unfold exec in Ht. vm_compute in Ht. injection Ht as <-. reflexivity.
Defined.

(** ** Manifests that cannot be opened *)

Ltac open_dialog Hfile :=
  unfold outcome, exec, refresh_count, show_yaml_dialog;
  unfold add_plots, add_warning, setText, load, bind, ret, lift, gets, modify; simpl;
  rewrite Hfile;
  match goal with
  | |- context [String.eqb ?f ""] =>
      destruct (String.eqb_spec f "") as [?E|_]; [contradiction|]
  end.

(** X15. A manifest that parses but has no [problems] key makes the
    manifest dialog raise [KeyError] for that key, and one whose list of
    problems is empty makes it raise [IndexError].  In both cases the
    four tables, the manifest, the tree and the plots are as before; the
    warning text has been cleared. *)
Theorem manifest_without_problem (petab : Petab) (home : string)
    (dialog : string -> string) (w : Window) (file_name : string) (doc : YamlDoc) :
  dialog (start_dir home w) = file_name ->
  file_name <> "" ->
  load_yaml petab file_name = inr doc ->
  let open := show_yaml_dialog petab home dialog in
  (dict_find "problems" doc = None -> outcome open w = inl (KeyError "problems")) /\
  (dict_find "problems" doc = Some [] -> outcome open w = inl IndexError) /\
  (dict_find "problems" doc = None \/ dict_find "problems" doc = Some [] ->
   active_selection (exec open w) = active_selection w /\
   yaml_dict (exec open w) = yaml_dict w /\
   tree_view (exec open w) = tree_view w /\
   refresh_count (exec open w) = refresh_count w /\
   warn_msg (exec open w) = "").
Proof.
  intros Hfile Hne Hdoc. cbv zeta. open_dialog Hfile.
  rewrite Hdoc. simpl. unfold getitem.
  split; [|split].
  - intros H. rewrite H. reflexivity.
  - intros H. rewrite H. reflexivity.
  - intros [H|H]; rewrite H; simpl; rewrite refreshes_app, app_nil_r;
      repeat split; reflexivity.
Qed.

Lemma manifest_without_problem_witness :
  outcome (show_yaml_dialog Cases.petab Fixture.home (Fixture.pick "/data/noproblems.yaml"))
          Fixture.opened = inl (KeyError "problems") /\
  outcome (show_yaml_dialog Cases.petab Fixture.home (Fixture.pick "/data/empty.yaml"))
          Fixture.opened = inl IndexError /\
  active_selection
    (exec (show_yaml_dialog Cases.petab Fixture.home (Fixture.pick "/data/empty.yaml"))
          Fixture.opened) = active_selection Fixture.opened.
Proof.
  destruct (manifest_without_problem Cases.petab Fixture.home
              (Fixture.pick "/data/noproblems.yaml") Fixture.opened
              "/data/noproblems.yaml" [("parameters", [])])
    as (H1 & _); [reflexivity | discriminate | reflexivity |].
  destruct (manifest_without_problem Cases.petab Fixture.home
              (Fixture.pick "/data/empty.yaml") Fixture.opened
              "/data/empty.yaml" [("problems", [])])
    as (_ & H2 & H3); [reflexivity | discriminate | reflexivity |].
  split; [exact (H1 eq_refl)|]. split; [exact (H2 eq_refl)|].
  destruct (H3 (or_intror eq_refl)) as (Hs & _). exact Hs.
Defined.

(** X16. A manifest whose first problem has no measurement key makes the
    manifest dialog raise [KeyError] for that key, and one whose list of
    measurement files is empty makes it raise [IndexError].  By then the
    window's manifest has already been replaced by the new problem, while
    the four tables and the tree are still those of before and no plot
    was refreshed. *)
Theorem manifest_without_measurement_file (petab : Petab) (home : string)
    (dialog : string -> string) (w : Window) (file_name : string) (yd : YamlDict) :
  dialog (start_dir home w) = file_name ->
  file_name <> "" ->
  manifest_problem petab file_name = inr yd ->
  let open := show_yaml_dialog petab home dialog in
  (dict_find MEASUREMENT_FILES yd = None ->
   outcome open w = inl (KeyError MEASUREMENT_FILES)) /\
  (dict_find MEASUREMENT_FILES yd = Some [] -> outcome open w = inl IndexError) /\
  (dict_find MEASUREMENT_FILES yd = None \/ dict_find MEASUREMENT_FILES yd = Some [] ->
   yaml_dict (exec open w) = Some yd /\
   active_selection (exec open w) = active_selection w /\
   tree_view (exec open w) = tree_view w /\
   refresh_count (exec open w) = refresh_count w).
Proof.
  intros Hfile Hne Hp. cbv zeta.
  destruct (manifest_problem_inv _ _ _ Hp) as (doc & problems & Hd & Hps & Hyd).
  open_dialog Hfile.
  rewrite Hd; simpl. rewrite Hps; simpl. rewrite Hyd; simpl. unfold getitem.
  split; [|split].
  - intros H. rewrite H. reflexivity.
  - intros H. rewrite H. reflexivity.
  - intros [H|H]; rewrite H; simpl; rewrite refreshes_app, app_nil_r;
      repeat split; reflexivity.
Qed.

Lemma manifest_without_measurement_file_witness :
  let nomeas := show_yaml_dialog Cases.petab Fixture.home
                  (Fixture.pick "/data/nomeas.yaml") in
  let emptymeas := show_yaml_dialog Cases.petab Fixture.home
                     (Fixture.pick "/data/emptymeas.yaml") in
  outcome nomeas Fixture.opened = inl (KeyError MEASUREMENT_FILES) /\
  yaml_dict (exec nomeas Fixture.opened) = Some Cases.problem_nomeas /\
  exp_data (exec nomeas Fixture.opened) = Some Fixture.meas1 /\
  outcome emptymeas Fixture.opened = inl IndexError.
Proof.
  cbv zeta.
  destruct (manifest_without_measurement_file Cases.petab Fixture.home
              (Fixture.pick "/data/nomeas.yaml") Fixture.opened
              "/data/nomeas.yaml" Cases.problem_nomeas)
    as (H1 & _ & H3); [reflexivity | discriminate | reflexivity |].
  destruct (manifest_without_measurement_file Cases.petab Fixture.home
              (Fixture.pick "/data/emptymeas.yaml") Fixture.opened
              "/data/emptymeas.yaml" Cases.problem_emptymeas)
    as (_ & H2 & _); [reflexivity | discriminate | reflexivity |].
  destruct (H3 (or_introl eq_refl)) as (Hy & Hs & _).
  split; [exact (H1 eq_refl)|]. split; [exact Hy|].
  split; [|exact (H2 eq_refl)].
  change (sel_measurement
            (active_selection
               (exec (show_yaml_dialog Cases.petab Fixture.home
                        (Fixture.pick "/data/nomeas.yaml")) Fixture.opened))
          = Some Fixture.meas1).
  rewrite Hs. reflexivity.
Defined.

(** X17. When the manifest names a visualization category whose first
    file cannot be taken or loaded, the exception leaves the manifest
    dialog after the new measurement and condition tables were installed
    and the simulation table was cleared: the visualization table and the
    tree are still the previous ones, and no plot was refreshed. *)
Theorem visualization_failure_leaves_previous_visualization (petab : Petab)
    (home : string) (dialog : string -> string) (w : Window) (file_name : string)
    (yd : YamlDict) (m c : DataFrame) (e : Exn) :
  dialog (start_dir home w) = file_name ->
  file_name <> "" ->
  manifest_problem petab file_name = inr yd ->
  first_table (get_measurement_df petab) (dirname file_name) yd MEASUREMENT_FILES = inr m ->
  first_table (get_condition_df petab) (dirname file_name) yd CONDITION_FILES = inr c ->
  dict_mem VISUALIZATION_FILES yd = true ->
  first_table (get_visualization_df petab) (dirname file_name) yd VISUALIZATION_FILES
  = inl e ->
  let open := show_yaml_dialog petab home dialog in
  outcome open w = inl e /\
  exp_data (exec open w) = Some m /\
  condition_df (exec open w) = Some c /\
  simulation_df (exec open w) = None /\
  visualization_df (exec open w) = visualization_df w /\
  tree_view (exec open w) = tree_view w /\
  refresh_count (exec open w) = refresh_count w.
Proof.
  intros Hfile Hne Hp Hm Hc Hmem Hv. cbv zeta.
  destruct (manifest_problem_inv _ _ _ Hp) as (doc & problems & Hd & Hps & Hyd).
  destruct (first_table_inv _ _ _ _ _ Hm) as (mfs & mf & Hm1 & Hm2 & Hm3).
  destruct (first_table_inv _ _ _ _ _ Hc) as (cfs & cf & Hc1 & Hc2 & Hc3).
  open_dialog Hfile.
  rewrite Hd; simpl. rewrite Hps; simpl. rewrite Hyd; simpl.
  rewrite Hm1; simpl. rewrite Hm2; simpl. rewrite Hm3; simpl.
  rewrite Hc1; simpl. rewrite Hc2; simpl. rewrite Hc3; simpl.
  rewrite Hmem.
  unfold first_table, first_file in Hv.
  destruct (getitem yd VISUALIZATION_FILES) as [e1|vfs]; simpl.
  { injection Hv as ->. repeat rewrite refreshes_app; simpl; repeat rewrite app_nil_r.
    repeat split; reflexivity. }
  destruct (first vfs) as [e2|vf]; simpl.
  { injection Hv as ->. repeat rewrite refreshes_app; simpl; repeat rewrite app_nil_r.
    repeat split; reflexivity. }
  unfold join in Hv; simpl in Hv. rewrite Hv; simpl.
  repeat rewrite refreshes_app; simpl; repeat rewrite app_nil_r.
  repeat split; reflexivity.
Qed.

Lemma visualization_failure_leaves_previous_visualization_witness :
  let open := show_yaml_dialog Cases.petab Fixture.home
                (Fixture.pick "/data/badvis.yaml") in
  outcome open Fixture.opened = inl (PetabError "cannot read /data/missing_vis.tsv") /\
  exp_data (exec open Fixture.opened) = Some Fixture.meas2 /\
  visualization_df (exec open Fixture.opened) = Some Fixture.vis.
Proof.
  cbv zeta.
  destruct (visualization_failure_leaves_previous_visualization Cases.petab Fixture.home
              (Fixture.pick "/data/badvis.yaml") Fixture.opened "/data/badvis.yaml"
              Cases.problem_badvis Fixture.meas2 Fixture.cond
              (PetabError "cannot read /data/missing_vis.tsv"))
    as (Ho & Hm & _ & _ & Hv & _);
    [reflexivity | discriminate | reflexivity | reflexivity | reflexivity
    | reflexivity | reflexivity |].
  split; [exact Ho|]. split; [exact Hm|]. rewrite Hv. reflexivity.
Defined.

(** ** What opening and attaching read and build *)

Lemma dict_find_In {V : Type} (key : string) (d : dict V) (v : V) :
  dict_find key d = Some v -> In (key, v) d.
Proof.
  induction d as [|[k u] d IH]; simpl; [discriminate|].
  destruct (String.eqb_spec key k) as [->|_].
  - intros H. injection H as ->. left. reflexivity.
  - intros H. right. apply IH. exact H.
Qed.

Lemma expected_loads_In (folder_path : string) (items : YamlDict) (key : string)
    (files : list string) (f : string) (kind : FileKind) :
  In (key, files) items -> In f files -> leaf_kind key = Some kind ->
  In (kind, join folder_path f) (loads (expected_loads folder_path items)).
Proof.
  intros Hi Hf Hk. unfold expected_loads.
  induction items as [|item items IH]; [contradiction|].
  simpl. rewrite loads_app. apply in_or_app.
  destruct Hi as [->|Hi]; [left | right; apply IH; exact Hi].
  simpl. clear IH.
  induction files as [|g files IHf]; [contradiction|].
  simpl. rewrite loads_app. apply in_or_app.
  destruct Hf as [->|Hf]; [left | right; apply IHf; exact Hf].
  unfold leaf_loads. rewrite Hk. left. reflexivity.
Qed.

(** X18. Opening a valid manifest reads the first measurement file twice
    from the same path: once for the active measurement table, right
    after the manifest itself, and once more when the tree is built. *)
Theorem opening_reads_first_measurement_file_twice (petab : Petab) (home : string)
    (dialog : string -> string) (w : Window) (file_name : string) (yd : YamlDict)
    (m c : DataFrame) :
  dialog (start_dir home w) = file_name ->
  file_name <> "" ->
  valid_manifest petab file_name yd m c ->
  exists mf before after,
    first_file yd MEASUREMENT_FILES = inr mf /\
    loads (new_events (show_yaml_dialog petab home dialog) w) =
    (YamlFile, file_name)
      :: (MeasurementFile, (dirname file_name ++ "/" ++ mf)%string)
      :: before
      ++ (MeasurementFile, (dirname file_name ++ "/" ++ mf)%string) :: after.
Proof.
  intros Hfile Hne [Hp Hm Hc Hv Ht].
  destruct (manifest_problem_inv _ _ _ Hp) as (doc & problems & Hd & Hps & Hyd).
  destruct (first_table_inv _ _ _ _ _ Hm) as (mfs & mf & Hm1 & Hm2 & Hm3).
  destruct (first_table_inv _ _ _ _ _ Hc) as (cfs & cf & Hc1 & Hc2 & Hc3).
  assert (Hin : In (MeasurementFile, join (dirname file_name) mf)
                   (loads (expected_loads (dirname file_name) yd))).
  { apply (expected_loads_In (dirname file_name) yd MEASUREMENT_FILES mfs mf).
    - apply dict_find_In. unfold getitem in Hm1.
      destruct (dict_find MEASUREMENT_FILES yd); [|discriminate].
      injection Hm1 as ->. reflexivity.
    - destruct mfs; [discriminate|]. injection Hm2 as ->. left. reflexivity.
    - reflexivity. }
  destruct (in_split _ _ Hin) as (l1 & l2 & Hsplit).
  assert (Hfirst : first_file yd MEASUREMENT_FILES = inr mf)
    by (unfold first_file; rewrite Hm1; exact Hm2).
  unfold new_events, exec.
  destruct (show_yaml_dialog petab home dialog w) as [res w'] eqn:E.
  unfold show_yaml_dialog in E. run. rewrite Hfile in E.
  destruct (String.eqb_spec file_name "") as [E0|_]; [contradiction|].
  rewrite Hd in E; simpl in E. rewrite Hps in E; simpl in E. rewrite Hyd in E; simpl in E.
  rewrite Hm1 in E; simpl in E. rewrite Hm2 in E; simpl in E. rewrite Hm3 in E; simpl in E.
  rewrite Hc1 in E; simpl in E. rewrite Hc2 in E; simpl in E. rewrite Hc3 in E; simpl in E.
  unfold join in Hsplit; simpl in Hsplit.
  destruct (dict_mem VISUALIZATION_FILES yd) eqn:Hmem.
  - destruct (Hv eq_refl) as [v Hv'].
    destruct (first_table_inv _ _ _ _ _ Hv') as (vfs & vf & Hv1 & Hv2 & Hv3).
    rewrite Hv1 in E; simpl in E. rewrite Hv2 in E; simpl in E. rewrite Hv3 in E; simpl in E.
    rewrite table_tree_view_loadable with (items := yd) in E
      by (try reflexivity; exact Ht).
    injection E as _ <-. simpl.
    repeat rewrite <- app_assoc. rewrite skipn_length_app. simpl.
    rewrite Hsplit.
    exists mf. eexists. exists l2. split; [exact Hfirst|].
    do 2 f_equal.
    change (?a :: ?b :: l1 ++ ?x :: l2) with ((a :: b :: l1) ++ x :: l2).
    reflexivity.
  - rewrite table_tree_view_loadable with (items := yd) in E
      by (try reflexivity; exact Ht).
    injection E as _ <-. simpl.
    repeat rewrite <- app_assoc. rewrite skipn_length_app. simpl.
    rewrite Hsplit.
    exists mf. eexists. exists l2. split; [exact Hfirst|].
    do 2 f_equal.
    change (?a :: l1 ++ ?x :: l2) with ((a :: l1) ++ x :: l2).
    reflexivity.
Qed.

Lemma opening_reads_first_measurement_file_twice_witness :
  loads (new_events (show_yaml_dialog Fixture.petab Fixture.home
                       (Fixture.pick "/data/problem.yaml")) Fixture.empty_window) =
  [ (YamlFile, "/data/problem.yaml"); (MeasurementFile, "/data/meas1.tsv");
    (ConditionFile, "/data/cond.tsv"); (VisualizationFile, "/data/vis.tsv");
    (MeasurementFile, "/data/meas1.tsv"); (MeasurementFile, "/data/meas2.tsv");
    (ConditionFile, "/data/cond.tsv"); (ObservableFile, "/data/obs.tsv");
    (VisualizationFile, "/data/vis.tsv") ].
Proof.
  destruct (opening_reads_first_measurement_file_twice Fixture.petab Fixture.home
              (Fixture.pick "/data/problem.yaml") Fixture.empty_window
              "/data/problem.yaml" Fixture.problem Fixture.meas1 Fixture.cond)
    as (mf & before & after & _ & _);
    [reflexivity | discriminate | exact fixture_manifest_valid |].
  vm_compute. reflexivity.
Defined.

(** X19. When a simulation file is attached and every file of the
    manifest loads from the simulation file's directory, the handler
    returns, the rebuilt tree ends with the branch [simulation_files]
    whose leaf holds the table just installed, and the directory of the
    simulation file is stored as the last used directory. *)
Theorem attached_simulation_appears_in_tree (petab : Petab) (home : string)
    (dialog : string -> string) (w : Window) (file_name : string)
    (exp sim chk : DataFrame) (items : YamlDict) :
  dialog (start_dir home w) = file_name ->
  file_name <> "" ->
  exp_data w = Some exp ->
  get_simulation_df petab file_name = inr sim ->
  check_ex_exp_columns petab sim (condition_df w) = inr chk ->
  yaml_dict w = Some items ->
  loadable petab (dirname file_name) items ->
  let attach := show_simulation_dialog petab home dialog in
  outcome attach w = inr tt /\
  last_dir_setting (exec attach w) = Some (dirname file_name) /\
  exists tree installed,
    tree_view (exec attach w) = Some tree /\
    simulation_df (exec attach w) = Some installed /\
    display_data tree (BranchIndex (List.length items)) = Some "simulation_files" /\
    display_data tree (LeafIndex (List.length items) 0) = Some "simulation_file" /\
    user_data tree (LeafIndex (List.length items) 0) = Some installed.
Proof.
  intros Hfile Hne Hexp Hsim Hchk Hy Hl. cbv zeta. unfold outcome, exec.
  rewrite (show_simulation_dialog_attach petab home dialog w file_name exp sim chk
             Hfile Hne Hexp Hsim Hchk).
  cbv zeta.
  rewrite table_tree_view_loadable with (items := items) by (try exact Hy; exact Hl).
  simpl. split; [reflexivity|]. split; [reflexivity|].
  eexists. eexists. split; [reflexivity|]. split; [reflexivity|].
  unfold display_data, user_data, leaf_at.
  rewrite nth_error_app2 by (rewrite expected_branches_length; lia).
  rewrite expected_branches_length, Nat.sub_diag. simpl.
  repeat split; reflexivity.
Qed.

Lemma attached_simulation_appears_in_tree_witness :
  let attach := show_simulation_dialog Fixture.petab Fixture.home
                  (Fixture.pick "/data/sim.tsv") in
  outcome attach Fixture.opened = inr tt /\
  exists tree,
    tree_view (exec attach Fixture.opened) = Some tree /\
    user_data tree (LeafIndex 5 0) = simulation_df (exec attach Fixture.opened) /\
    simulation_df (exec attach Fixture.opened) <> None.
Proof.
  cbv zeta.
  destruct (attached_simulation_appears_in_tree Fixture.petab Fixture.home
              (Fixture.pick "/data/sim.tsv") Fixture.opened "/data/sim.tsv"
              Fixture.meas1 Fixture.sim
              (fold_left Fixture.add_default Fixture.defaults Fixture.sim)
              Fixture.problem)
    as (Ho & _ & tree & installed & Ht & Hs & _ & _ & Hu);
    [reflexivity | discriminate | reflexivity | reflexivity | reflexivity
    | reflexivity | apply loadableb_sound; reflexivity |].
  split; [exact Ho|]. exists tree. split; [exact Ht|].
  rewrite Hs. split; [exact Hu | discriminate].
Defined.

(** X20. Opening a valid manifest discards an attached simulation: the
    simulation table is cleared and the rebuilt tree has exactly the
    manifest's keys as its branches, with no [simulation_files] branch,
    whatever was attached before. *)
Theorem reopening_discards_simulation (petab : Petab) (home : string)
    (dialog : string -> string) (w : Window) (file_name : string) (yd : YamlDict)
    (m c : DataFrame) :
  dialog (start_dir home w) = file_name ->
  file_name <> "" ->
  valid_manifest petab file_name yd m c ->
  let w' := exec (show_yaml_dialog petab home dialog) w in
  simulation_df w' = None /\
  exists tree,
    tree_view w' = Some tree /\
    map branch_name tree = map fst yd.
Proof.
  intros Hfile Hne Hvalid. cbv zeta.
  destruct (show_yaml_dialog_valid petab home dialog w file_name yd m c Hfile Hne Hvalid)
    as (_ & _ & _ & Hs & _ & Ht & _).
  cbv zeta in Hs, Ht. split; [exact Hs|].
  eexists. split; [exact Ht|]. unfold expected_tree. apply expected_branches_names.
Qed.

Lemma reopening_discards_simulation_witness :
  let w' := exec (show_yaml_dialog Fixture.petab Fixture.home
                    (Fixture.pick "/data/problem.yaml")) Cases.attached in
  simulation_df Cases.attached <> None /\
  option_map (map branch_name) (tree_view Cases.attached) =
  Some ["sbml_files"; MEASUREMENT_FILES; CONDITION_FILES; OBSERVABLE_FILES;
        VISUALIZATION_FILES; "simulation_files"] /\
  simulation_df w' = None /\
  exists tree,
    tree_view w' = Some tree /\
    map branch_name tree =
    ["sbml_files"; MEASUREMENT_FILES; CONDITION_FILES; OBSERVABLE_FILES;
     VISUALIZATION_FILES].
Proof.
  cbv zeta. split; [discriminate|]. split; [reflexivity|].
  destruct (reopening_discards_simulation Fixture.petab Fixture.home
              (Fixture.pick "/data/problem.yaml") Cases.attached
              "/data/problem.yaml" Fixture.problem Fixture.meas1 Fixture.cond)
    as (Hs & tree & Ht & Hn);
    [reflexivity | discriminate | exact fixture_manifest_valid |].
  split; [exact Hs|]. exists tree. split; [exact Ht | exact Hn].
Defined.
